(** * The financial context provider (src/context/FinancialProvider.tsx)

    A shallow embedding of the React provider that owns the financial
    state: the entity operations (add / update / delete for income,
    expenses and goals), the manual save and load, and the two lifecycle
    effects (load on mount, debounced save on change).

    Objects are finite maps from property names to values, object spread
    is left-biased map union, the clock and the random source are inputs,
    and an async operation is a computation that logs what it dispatches
    and either returns or throws. *)

From Stdlib Require Import ZArith Lia List Bool Ascii String.
From stdpp Require Import base option list gmap strings pretty.

Local Open Scope string_scope.
Local Open Scope Z_scope.
Local Open Scope list_scope.

(** ** JavaScript values and plain objects *)

(** The values the provider copies around.  It never computes with the
    numbers, it only moves them from one object to another. *)
Inductive value : Type :=
  | VUndefined
  | VNull
  | VBool (b : bool)
  | VNum (n : Z)
  | VStr (s : string).

Global Instance value_eq_dec : EqDecision value.
Proof. solve_decision. Defined.

(** A plain object: its own enumerable properties. *)
Abbreviation object := (gmap string value).

(** [o[k]]: reading a property that is not there yields [undefined]. *)
Definition get (o : object) (k : string) : value :=
  default VUndefined (o !! k).

(** [a === b] on the values above. *)
Definition strict_eq (a b : value) : bool := bool_decide (a = b).

(** [{ ...base, ...over }]: later spreads win. *)
Definition spread (base over : object) : object := over ∪ base.

(** ** Date.prototype.toISOString on a time value (milliseconds since the
    epoch, UTC) *)

Module Date.

Definition msPerDay : Z := 86400000.

Definition Day (t : Z) : Z := t / msPerDay.
Definition HourFromTime (t : Z) : Z := (t / 3600000) mod 24.
Definition MinFromTime (t : Z) : Z := (t / 60000) mod 60.
Definition SecFromTime (t : Z) : Z := (t / 1000) mod 60.
Definition msFromTime (t : Z) : Z := t mod 1000.

(** Proleptic Gregorian date of a day number (days since 1970-01-01),
    by 400-year eras that start on March 1st. *)
Definition dayOfEra (day : Z) : Z := (day + 719468) mod 146097.
Definition era (day : Z) : Z := (day + 719468) / 146097.

(** year within the era, month (1 to 12) and day of the month (1 to 31)
    of a day of the era; January and February belong to the next year *)
Definition civilFromEraDay (doe : Z) : Z * Z * Z :=
  let yoe := (doe - doe / 1460 + doe / 36524 - doe / 146096) / 365 in
  let doy := doe - (365 * yoe + yoe / 4 - yoe / 100) in
  let mp := (5 * doy + 2) / 153 in
  let d := doy - (153 * mp + 2) / 5 + 1 in
  let m := if mp <? 10 then mp + 3 else mp - 9 in
  (yoe + (if m <=? 2 then 1 else 0), m, d).

Definition YearFromTime (t : Z) : Z :=
  fst (fst (civilFromEraDay (dayOfEra (Day t)))) + 400 * era (Day t).
Definition MonthFromTime (t : Z) : Z :=
  snd (fst (civilFromEraDay (dayOfEra (Day t)))).
Definition DateFromTime (t : Z) : Z :=
  snd (civilFromEraDay (dayOfEra (Day t))).

Definition digit (d : Z) : ascii := ascii_of_N (48 + Z.to_N d).

(** the [w] low decimal digits of [n], most significant first *)
Fixpoint digits (w : nat) (n : Z) : string :=
  match w with
  | O => ""
  | S w' => String (digit ((n / 10 ^ Z.of_nat w') mod 10)) (digits w' n)
  end.

(** four digits for the years 0 to 9999, a sign and six digits otherwise *)
Definition yearString (y : Z) : string :=
  if (0 <=? y) && (y <=? 9999) then digits 4 y
  else if y <? 0 then "-" +:+ digits 6 (- y)
  else "+" +:+ digits 6 y.

Definition toISOString (t : Z) : string :=
  yearString (YearFromTime t) +:+ "-" +:+ digits 2 (MonthFromTime t)
    +:+ "-" +:+ digits 2 (DateFromTime t)
    +:+ "T" +:+ digits 2 (HourFromTime t)
    +:+ ":" +:+ digits 2 (MinFromTime t)
    +:+ ":" +:+ digits 2 (SecFromTime t)
    +:+ "." +:+ digits 3 (msFromTime t) +:+ "Z".

End Date.

(** ** The state held by the provider (./types) *)

(** Modelled from the spec: the declarations of ./types and ../types are
    not among the sources.  An Income, an Expense or a Goal is an entity
    with an identifier, the fields the caller supplied and the two stamps
    [createdAt] and [updatedAt]: an object. *)
Abbreviation Income := object (only parsing).
Abbreviation Expense := object (only parsing).
Abbreviation Goal := object (only parsing).

(** Modelled from the spec: the Plan of ./types, the aggregate root: an
    identifier ("default-plan" until the plan is persisted) and the
    ordered sequences of incomes, expenses and goals, as the provider
    reads them; the fields it never reads (balance, forecast
    configuration, derived data) travel in [planRest]. *)
Record UserPlan : Type := {
  id : string;
  income : list Income;
  expenses : list Expense;
  goals : list Goal;
  planRest : object
}.

(** Modelled from the spec: the loading flags of ./types, independent of
    one another. *)
Record LoadingState : Type := {
  isLoading : bool;
  isSaving : bool;
  isLoadingIncome : bool;
  isLoadingExpenses : bool;
  isLoadingGoals : bool;
  isLoadingForecast : bool
}.

(** Modelled from the spec: the error state of ./types, from the category
    key ("incomeError", "expenseError", "goalError", "forecastError",
    "generalError") to its message, when one is set. *)
Abbreviation ErrorState := (gmap string string).

(** Modelled from the spec: the state of ./types, as far as the provider
    reads it. *)
Record FinancialState : Type := {
  userPlan : UserPlan;
  loading : LoadingState;
  error : ErrorState;
  hasUnsavedChanges : bool
}.

(** ** The action builders the provider calls (./actions) *)

Module actions.

(** Modelled from the spec: the builders of ./actions are not among the
    sources; each one builds the action named after it from its
    arguments.  Only the builders the operations below call are listed. *)

Inductive Action : Type :=
  | setLoading (b : bool)
  | setSaving (b : bool)
  | setLoadingIncome (b : bool)
  | setLoadingExpenses (b : bool)
  | setLoadingGoals (b : bool)
  | clearError (errorType : option string)
  | setIncomeError (message : string)
  | setExpenseError (message : string)
  | setGoalError (message : string)
  | addIncome (e : object)
  | updateIncome (e : object)
  | deleteIncome (incomeId : string)
  | addExpense (e : object)
  | updateExpense (e : object)
  | deleteExpense (expenseId : string)
  | addGoal (e : object)
  | updateGoal (e : object)
  | deleteGoal (goalId : string)
  | setUserPlan (p : UserPlan)
  | loadSuccess (p : UserPlan)
  | loadError (message : string)
  | saveSuccess
  | saveError (message : string).

End actions.

(** ** Async operations: a log of effects and a completion *)

(** What a [throw] carries: an [Error] with its message, or anything else. *)
Inductive thrown : Type :=
  | JsError (message : string)
  | NonError (v : value).

(** [error instanceof Error ? error.message : fallback] *)
Definition errorMessage (error : thrown) (fallback : string) : string :=
  match error with
  | JsError message => message
  | NonError _ => fallback
  end.

(** How a block (or the promise of an async function) completes. *)
Inductive completion (A : Type) : Type :=
  | Returned (a : A)
  | Thrown (e : thrown).
Arguments Returned {A} a.
Arguments Thrown {A} e.

(** What an operation does to the outside, in order. *)
Inductive Event : Type :=
  | Dispatch (a : actions.Action)
  | Raised (e : thrown)
  | ImportStorage
  | StorageLoad
  | StorageSave (p : UserPlan)
  | ConsoleError (label : string) (e : thrown).

Definition M (A : Type) : Type := list Event * completion A.

Definition ret {A : Type} (a : A) : M A := ([], Returned a).

Definition bind {A B : Type} (m : M A) (k : A -> M B) : M B :=
  match m with
  | (l, Returned a) => let '(l', r) := k a in (l ++ l', r)
  | (l, Thrown e) => (l, Thrown e)
  end.

Notation "x <- m ;; k" := (bind m (fun x => k))
  (at level 100, m at next level, right associativity).
Notation "m ;; k" := (bind m (fun _ => k))
  (at level 100, right associativity).

(** [throw e]; the log keeps where it happened *)
Definition throw {A : Type} (e : thrown) : M A := ([Raised e], Thrown e).

(** [dispatch(a)]: React's dispatch queues the action and returns. *)
Definition dispatch (a : actions.Action) : M unit := ([Dispatch a], Returned tt).

(** [console.error(label, e)] *)
Definition console_error (label : string) (e : thrown) : M unit :=
  ([ConsoleError label e], Returned tt).

(** [try { body } catch (error) { handler }] *)
Definition try_catch {A : Type} (body : M A) (handler : thrown -> M A) : M A :=
  match body with
  | (l, Returned a) => (l, Returned a)
  | (l, Thrown e) => let '(l', r) := handler e in (l ++ l', r)
  end.

(** [try { body } finally { finalizer }]: the finalizer always runs; the
    completion of the body stands unless the finalizer itself throws. *)
Definition try_finally {A : Type} (body : M A) (finalizer : M unit) : M A :=
  let '(l, r) := body in
  match finalizer with
  | (l', Returned _) => (l ++ l', r)
  | (l', Thrown e) => (l ++ l', Thrown e)
  end.

Definition try_catch_finally {A : Type}
    (body : M A) (handler : thrown -> M A) (finalizer : M unit) : M A :=
  try_finally (try_catch body handler) finalizer.

(** ** The storage module (./storage), an input of the model

    [importStorage] is how [await import("./storage")] settles, the other
    two are how the awaited calls settle.  A rejection is raised where it
    is awaited. *)
Record Storage : Type := {
  importStorage : completion unit;
  loadFromStorage : completion (option UserPlan);
  saveToStorage : UserPlan -> completion UserPlan
}.

Definition await {A : Type} (call : Event) (result : completion A) : M A :=
  match result with
  | Returned a => ([call], Returned a)
  | Thrown e => ([call; Raised e], Thrown e)
  end.

Definition await_import (st : Storage) : M unit :=
  await ImportStorage (importStorage st).
Definition await_load (st : Storage) : M (option UserPlan) :=
  await StorageLoad (loadFromStorage st).
Definition await_save (st : Storage) (p : UserPlan) : M UserPlan :=
  await (StorageSave p) (saveToStorage st p).

(** ** The provider's operations

    The clock and the random source are inputs: [now...] is what a read of
    the clock returns (milliseconds since the epoch), [random36] is what
    [Math.random().toString(36)] returns.  [state] is the state the
    callback closes over. *)

(** [`${prefix}-${Date.now()}-${Math.random().toString(36).substr(2, 9)}`] *)
Definition generateId (now : Z) (random36 : string) (prefix : string) : string :=
  prefix +:+ "-" +:+ pretty now +:+ "-" +:+ substring 2 9 random36.

(** [new Date().toISOString()] when the clock reads [now] *)
Definition isoNow (now : Z) : value := VStr (Date.toISOString now).

(** [{ id: generateId(prefix), ...input, createdAt: ..., updatedAt: ... }] *)
Definition newEntity (prefix : string) (nowId : Z) (random36 : string)
    (nowCreated nowUpdated : Z) (input : object) : object :=
  <["updatedAt" := isoNow nowUpdated]>
    (<["createdAt" := isoNow nowCreated]>
       (spread {["id" := VStr (generateId nowId random36 prefix)]} input)).

(** [{ ...existing, ...input, updatedAt: ... }] *)
Definition updatedEntity (existing input : object) (now : Z) : object :=
  <["updatedAt" := isoNow now]> (spread existing input).

(** [seq.find((x) => x.id === input.id)] *)
Definition findById (seq : list object) (input : object) : option object :=
  List.find (fun x => strict_eq (get x "id") (get input "id")) seq.

Definition addIncome (nowId : Z) (random36 : string) (nowCreated nowUpdated : Z)
    (incomeInput : object) : M unit :=
  try_catch_finally
    (dispatch (actions.setLoadingIncome true);;
     dispatch (actions.clearError (Some "incomeError"));;
     let newIncome :=
       newEntity "income" nowId random36 nowCreated nowUpdated incomeInput in
     dispatch (actions.addIncome newIncome))
    (fun error =>
       let errorMessage := errorMessage error "Failed to add income" in
       dispatch (actions.setIncomeError errorMessage);;
       throw error)
    (dispatch (actions.setLoadingIncome false)).

Definition updateIncome (state : FinancialState) (now : Z)
    (incomeInput : object) : M unit :=
  try_catch_finally
    (dispatch (actions.setLoadingIncome true);;
     dispatch (actions.clearError (Some "incomeError"));;
     match findById (income (userPlan state)) incomeInput with
     | None => throw (JsError "Income not found")
     | Some existingIncome =>
         let updatedIncome := updatedEntity existingIncome incomeInput now in
         dispatch (actions.updateIncome updatedIncome)
     end)
    (fun error =>
       let errorMessage := errorMessage error "Failed to update income" in
       dispatch (actions.setIncomeError errorMessage);;
       throw error)
    (dispatch (actions.setLoadingIncome false)).

Definition deleteIncome (incomeId : string) : M unit :=
  try_catch_finally
    (dispatch (actions.setLoadingIncome true);;
     dispatch (actions.clearError (Some "incomeError"));;
     dispatch (actions.deleteIncome incomeId))
    (fun error =>
       let errorMessage := errorMessage error "Failed to delete income" in
       dispatch (actions.setIncomeError errorMessage);;
       throw error)
    (dispatch (actions.setLoadingIncome false)).

Definition addExpense (nowId : Z) (random36 : string) (nowCreated nowUpdated : Z)
    (expenseInput : object) : M unit :=
  try_catch_finally
    (dispatch (actions.setLoadingExpenses true);;
     dispatch (actions.clearError (Some "expenseError"));;
     let newExpense :=
       newEntity "expense" nowId random36 nowCreated nowUpdated expenseInput in
     dispatch (actions.addExpense newExpense))
    (fun error =>
       let errorMessage := errorMessage error "Failed to add expense" in
       dispatch (actions.setExpenseError errorMessage);;
       throw error)
    (dispatch (actions.setLoadingExpenses false)).

Definition updateExpense (state : FinancialState) (now : Z)
    (expenseInput : object) : M unit :=
  try_catch_finally
    (dispatch (actions.setLoadingExpenses true);;
     dispatch (actions.clearError (Some "expenseError"));;
     match findById (expenses (userPlan state)) expenseInput with
     | None => throw (JsError "Expense not found")
     | Some existingExpense =>
         let updatedExpense := updatedEntity existingExpense expenseInput now in
         dispatch (actions.updateExpense updatedExpense)
     end)
    (fun error =>
       let errorMessage := errorMessage error "Failed to update expense" in
       dispatch (actions.setExpenseError errorMessage);;
       throw error)
    (dispatch (actions.setLoadingExpenses false)).

Definition deleteExpense (expenseId : string) : M unit :=
  try_catch_finally
    (dispatch (actions.setLoadingExpenses true);;
     dispatch (actions.clearError (Some "expenseError"));;
     dispatch (actions.deleteExpense expenseId))
    (fun error =>
       let errorMessage := errorMessage error "Failed to delete expense" in
       dispatch (actions.setExpenseError errorMessage);;
       throw error)
    (dispatch (actions.setLoadingExpenses false)).

Definition addGoal (nowId : Z) (random36 : string) (nowCreated nowUpdated : Z)
    (goalInput : object) : M unit :=
  try_catch_finally
    (dispatch (actions.setLoadingGoals true);;
     dispatch (actions.clearError (Some "goalError"));;
     let newGoal :=
       newEntity "goal" nowId random36 nowCreated nowUpdated goalInput in
     dispatch (actions.addGoal newGoal))
    (fun error =>
       let errorMessage := errorMessage error "Failed to add goal" in
       dispatch (actions.setGoalError errorMessage);;
       throw error)
    (dispatch (actions.setLoadingGoals false)).

Definition updateGoal (state : FinancialState) (now : Z)
    (goalInput : object) : M unit :=
  try_catch_finally
    (dispatch (actions.setLoadingGoals true);;
     dispatch (actions.clearError (Some "goalError"));;
     match findById (goals (userPlan state)) goalInput with
     | None => throw (JsError "Goal not found")
     | Some existingGoal =>
         let updatedGoal := updatedEntity existingGoal goalInput now in
         dispatch (actions.updateGoal updatedGoal)
     end)
    (fun error =>
       let errorMessage := errorMessage error "Failed to update goal" in
       dispatch (actions.setGoalError errorMessage);;
       throw error)
    (dispatch (actions.setLoadingGoals false)).

Definition deleteGoal (goalId : string) : M unit :=
  try_catch_finally
    (dispatch (actions.setLoadingGoals true);;
     dispatch (actions.clearError (Some "goalError"));;
     dispatch (actions.deleteGoal goalId))
    (fun error =>
       let errorMessage := errorMessage error "Failed to delete goal" in
       dispatch (actions.setGoalError errorMessage);;
       throw error)
    (dispatch (actions.setLoadingGoals false)).

Definition saveUserPlan (st : Storage) (state : FinancialState) : M unit :=
  try_catch
    (dispatch (actions.setSaving true);;
     dispatch (actions.clearError (Some "generalError"));;
     await_import st;;
     savedPlan <- await_save st (userPlan state);;
     (if negb (String.eqb (id savedPlan) (id (userPlan state)))
      then dispatch (actions.setUserPlan savedPlan)
      else ret tt);;
     dispatch actions.saveSuccess)
    (fun error =>
       let errorMessage := errorMessage error "Failed to save user plan" in
       dispatch (actions.saveError errorMessage);;
       throw error).

Definition loadUserPlan (st : Storage) : M unit :=
  try_catch
    (dispatch (actions.setLoading true);;
     dispatch (actions.clearError (Some "generalError"));;
     await_import st;;
     loadedPlan <- await_load st;;
     match loadedPlan with
     | Some loadedPlan => dispatch (actions.loadSuccess loadedPlan)
     | None => dispatch (actions.setLoading false)
     end)
    (fun error =>
       let errorMessage := errorMessage error "Failed to load user plan" in
       dispatch (actions.loadError errorMessage);;
       throw error).

(** ** The lifecycle effects *)

(** the condition of the effect that runs on mount: the default state, no
    real data loaded yet *)
Definition isPristine (state : FinancialState) : bool :=
  String.eqb (id (userPlan state)) "default-plan"
  && (length (income (userPlan state)) =? 0)%nat
  && (length (expenses (userPlan state)) =? 0)%nat
  && (length (goals (userPlan state)) =? 0)%nat.

(** [loadData] of the effect that runs on mount *)
Definition loadData (st : Storage) : M unit :=
  try_catch
    (dispatch (actions.setLoading true);;
     dispatch (actions.clearError (Some "generalError"));;
     await_import st;;
     loadedPlan <- await_load st;;
     match loadedPlan with
     | Some loadedPlan => dispatch (actions.loadSuccess loadedPlan)
     | None => dispatch (actions.setLoading false)
     end)
    (fun error =>
       let errorMessage := errorMessage error "Failed to load user plan" in
       dispatch (actions.loadError errorMessage)).

Definition autoLoadEffect (st : Storage) (state : FinancialState) : M unit :=
  if isPristine state then loadData st else ret tt.

(** [hasRealData] of the auto-save effect *)
Definition hasRealData (state : FinancialState) : bool :=
  negb (String.eqb (id (userPlan state)) "default-plan")
  || (0 <? length (income (userPlan state)))%nat
  || (0 <? length (expenses (userPlan state)))%nat
  || (0 <? length (goals (userPlan state)))%nat.

(** [saveData] of the auto-save effect, closed over [state] *)
Definition saveData (st : Storage) (state : FinancialState) : M unit :=
  try_catch
    (await_import st;;
     savedPlan <- await_save st (userPlan state);;
     (if negb (String.eqb (id savedPlan) (id (userPlan state)))
      then dispatch (actions.setUserPlan savedPlan)
      else ret tt);;
     dispatch actions.saveSuccess)
    (fun error => console_error "Auto-save failed:" error).

(** A pending [setTimeout(saveData, 1000)]: when it is due and the state
    its callback closes over. *)
Record Timeout : Type := {
  dueAt : Z;
  closure : FinancialState
}.

(** One run of the auto-save effect at time [now]: [Some] timer when it
    calls [setTimeout] (and returns the cleanup that clears it), [None]
    when it does nothing. *)
Definition autoSaveEffect (now : Z) (state : FinancialState) : option Timeout :=
  if hasRealData state
     && negb (isLoading (loading state))
     && negb (isSaving (loading state))
     && hasUnsavedChanges state
  then Some {| dueAt := now + 1000; closure := state |}
  else None.

(** ** Timers and commits

    The auto-save effect depends on the plan, [hasUnsavedChanges],
    [isLoading] and [isSaving].  At every commit in which one of them
    changed React first runs the cleanup of the previous run (which clears
    its timer, if it had set one) and then runs the effect again.  A timer
    that is still pending when its time comes runs its callback. *)
Record Timers : Type := {
  pending : option Timeout;
  fired : list Timeout
}.

Definition noTimers : Timers := {| pending := None; fired := [] |}.

(** time passes up to [t]: a pending timer that is due runs *)
Definition elapse (t : Z) (tm : Timers) : Timers :=
  match pending tm with
  | Some x =>
      if dueAt x <=? t
      then {| pending := None; fired := fired tm ++ [x] |}
      else tm
  | None => tm
  end.

(** a commit at time [fst c] with state [snd c]: cleanup, then the effect *)
Definition commit (tm : Timers) (c : Z * FinancialState) : Timers :=
  {| pending := autoSaveEffect (fst c) (snd c);
     fired := fired (elapse (fst c) tm) |}.

Definition commits (cs : list (Z * FinancialState)) (tm : Timers) : Timers :=
  fold_left commit cs tm.

(** no further commit: whatever is pending runs when it is due *)
Definition settle (tm : Timers) : list Timeout :=
  match pending tm with
  | Some x => fired tm ++ [x]
  | None => fired tm
  end.

(** the calls of the storage module's save made by the callbacks that ran *)
Definition isStorageSave (e : Event) : bool :=
  match e with StorageSave _ => true | _ => false end.

Definition saveCalls (st : Storage) (ran : list Timeout) : list Event :=
  filter (fun e => isStorageSave e = true)
         (flat_map (fun x => fst (saveData st (closure x))) ran).

(** consecutive commits are less than 1000ms apart, in time order *)
Fixpoint withinDebounce (cs : list (Z * FinancialState)) : Prop :=
  match cs with
  | c1 :: ((c2 :: _) as rest) =>
      fst c1 <= fst c2 < fst c1 + 1000 /\ withinDebounce rest
  | _ => True
  end.

(** ** The reducer *)

Definition withLoading (state : FinancialState) (l : LoadingState) : FinancialState :=
  {| userPlan := userPlan state; loading := l; error := error state;
     hasUnsavedChanges := hasUnsavedChanges state |}.

Definition withError (state : FinancialState) (e : ErrorState) : FinancialState :=
  {| userPlan := userPlan state; loading := loading state; error := e;
     hasUnsavedChanges := hasUnsavedChanges state |}.

Definition withPlan (state : FinancialState) (p : UserPlan) : FinancialState :=
  {| userPlan := p; loading := loading state; error := error state;
     hasUnsavedChanges := hasUnsavedChanges state |}.

Definition withUnsaved (state : FinancialState) (b : bool) : FinancialState :=
  {| userPlan := userPlan state; loading := loading state; error := error state;
     hasUnsavedChanges := b |}.

Definition withIncome (p : UserPlan) (l : list object) : UserPlan :=
  {| id := id p; income := l; expenses := expenses p; goals := goals p;
     planRest := planRest p |}.

Definition withExpenses (p : UserPlan) (l : list object) : UserPlan :=
  {| id := id p; income := income p; expenses := l; goals := goals p;
     planRest := planRest p |}.

Definition withGoals (p : UserPlan) (l : list object) : UserPlan :=
  {| id := id p; income := income p; expenses := expenses p; goals := l;
     planRest := planRest p |}.

(** replace the entity that carries the id of [e] *)
Definition replaceById (e : object) (seq : list object) : list object :=
  map (fun x => if strict_eq (get x "id") (get e "id") then e else x) seq.

(** drop the entities that carry the id [i] *)
Definition removeById (i : string) (seq : list object) : list object :=
  List.filter (fun x => negb (strict_eq (get x "id") (VStr i))) seq.

(** a mutation of the plan: the new plan, and unsaved changes *)
Definition mutated (state : FinancialState) (p : UserPlan) : FinancialState :=
  withUnsaved (withPlan state p) true.

(** Modelled from the spec: the reducer ([enhancedFinancialReducer] of
    ./reducer) is not among the sources.  The spec has it total and pure:
    a loading action sets its flag; clear-error unsets one category or,
    without a category, all of them; an error action sets its category;
    add, update and delete change the matching sequence by id (deleting an
    absent id is a no-op) and, as every mutation, set [hasUnsavedChanges];
    replace-plan and load-success replace the plan wholesale, load-success
    ending the load; load-error and save-error record the message into
    [generalError], and save-error leaves the saving flag as it is;
    save-success ends the save and clears [hasUnsavedChanges]. *)
Definition enhancedFinancialReducer (state : FinancialState)
    (action : actions.Action) : FinancialState :=
  let l := loading state in
  let p := userPlan state in
  match action with
  | actions.setLoading b =>
      withLoading state
        {| isLoading := b; isSaving := isSaving l;
           isLoadingIncome := isLoadingIncome l;
           isLoadingExpenses := isLoadingExpenses l;
           isLoadingGoals := isLoadingGoals l;
           isLoadingForecast := isLoadingForecast l |}
  | actions.setSaving b =>
      withLoading state
        {| isLoading := isLoading l; isSaving := b;
           isLoadingIncome := isLoadingIncome l;
           isLoadingExpenses := isLoadingExpenses l;
           isLoadingGoals := isLoadingGoals l;
           isLoadingForecast := isLoadingForecast l |}
  | actions.setLoadingIncome b =>
      withLoading state
        {| isLoading := isLoading l; isSaving := isSaving l;
           isLoadingIncome := b;
           isLoadingExpenses := isLoadingExpenses l;
           isLoadingGoals := isLoadingGoals l;
           isLoadingForecast := isLoadingForecast l |}
  | actions.setLoadingExpenses b =>
      withLoading state
        {| isLoading := isLoading l; isSaving := isSaving l;
           isLoadingIncome := isLoadingIncome l;
           isLoadingExpenses := b;
           isLoadingGoals := isLoadingGoals l;
           isLoadingForecast := isLoadingForecast l |}
  | actions.setLoadingGoals b =>
      withLoading state
        {| isLoading := isLoading l; isSaving := isSaving l;
           isLoadingIncome := isLoadingIncome l;
           isLoadingExpenses := isLoadingExpenses l;
           isLoadingGoals := b;
           isLoadingForecast := isLoadingForecast l |}
  | actions.clearError (Some errorType) =>
      withError state (delete errorType (error state))
  | actions.clearError None => withError state ∅
  | actions.setIncomeError message =>
      withError state (<["incomeError" := message]> (error state))
  | actions.setExpenseError message =>
      withError state (<["expenseError" := message]> (error state))
  | actions.setGoalError message =>
      withError state (<["goalError" := message]> (error state))
  | actions.addIncome e => mutated state (withIncome p (income p ++ [e]))
  | actions.updateIncome e => mutated state (withIncome p (replaceById e (income p)))
  | actions.deleteIncome i => mutated state (withIncome p (removeById i (income p)))
  | actions.addExpense e => mutated state (withExpenses p (expenses p ++ [e]))
  | actions.updateExpense e =>
      mutated state (withExpenses p (replaceById e (expenses p)))
  | actions.deleteExpense i =>
      mutated state (withExpenses p (removeById i (expenses p)))
  | actions.addGoal e => mutated state (withGoals p (goals p ++ [e]))
  | actions.updateGoal e => mutated state (withGoals p (replaceById e (goals p)))
  | actions.deleteGoal i => mutated state (withGoals p (removeById i (goals p)))
  | actions.setUserPlan plan => withPlan state plan
  | actions.loadSuccess plan =>
      withLoading (withPlan state plan)
        {| isLoading := false; isSaving := isSaving l;
           isLoadingIncome := isLoadingIncome l;
           isLoadingExpenses := isLoadingExpenses l;
           isLoadingGoals := isLoadingGoals l;
           isLoadingForecast := isLoadingForecast l |}
  | actions.loadError message =>
      withError state (<["generalError" := message]> (error state))
  | actions.saveSuccess =>
      withUnsaved
        (withLoading state
           {| isLoading := isLoading l; isSaving := false;
              isLoadingIncome := isLoadingIncome l;
              isLoadingExpenses := isLoadingExpenses l;
              isLoadingGoals := isLoadingGoals l;
              isLoadingForecast := isLoadingForecast l |})
        false
  | actions.saveError message =>
      withError state (<["generalError" := message]> (error state))
  end.

(** the actions an operation dispatched, in order *)
Definition dispatched (l : list Event) : list actions.Action :=
  omap (fun e => match e with Dispatch a => Some a | _ => None end) l.

(** the state once the reducer has consumed what the operation dispatched *)
Definition stateAfter {A : Type} (state : FinancialState) (op : M A) : FinancialState :=
  fold_left enhancedFinancialReducer (dispatched (fst op)) state.

(** how the promise of the operation settles *)
Definition settled {A : Type} (op : M A) : completion A := snd op.

(** ** The three entity kinds, to speak of all nine operations at once *)

Inductive EntityKind : Type := IncomeKind | ExpenseKind | GoalKind.

Definition prefixOf (k : EntityKind) : string :=
  match k with IncomeKind => "income" | ExpenseKind => "expense" | GoalKind => "goal" end.

Definition sequenceOf (k : EntityKind) (p : UserPlan) : list object :=
  match k with IncomeKind => income p | ExpenseKind => expenses p | GoalKind => goals p end.

Definition errorKeyOf (k : EntityKind) : string :=
  match k with
  | IncomeKind => "incomeError" | ExpenseKind => "expenseError" | GoalKind => "goalError"
  end.

Definition notFoundOf (k : EntityKind) : string :=
  match k with
  | IncomeKind => "Income not found"
  | ExpenseKind => "Expense not found"
  | GoalKind => "Goal not found"
  end.

Definition loadingFlagOf (k : EntityKind) (l : LoadingState) : bool :=
  match k with
  | IncomeKind => isLoadingIncome l
  | ExpenseKind => isLoadingExpenses l
  | GoalKind => isLoadingGoals l
  end.

Definition setLoadingOf (k : EntityKind) (b : bool) : actions.Action :=
  match k with
  | IncomeKind => actions.setLoadingIncome b
  | ExpenseKind => actions.setLoadingExpenses b
  | GoalKind => actions.setLoadingGoals b
  end.

Definition setErrorOf (k : EntityKind) (message : string) : actions.Action :=
  match k with
  | IncomeKind => actions.setIncomeError message
  | ExpenseKind => actions.setExpenseError message
  | GoalKind => actions.setGoalError message
  end.

Definition addActionOf (k : EntityKind) (e : object) : actions.Action :=
  match k with
  | IncomeKind => actions.addIncome e
  | ExpenseKind => actions.addExpense e
  | GoalKind => actions.addGoal e
  end.

Definition updateActionOf (k : EntityKind) (e : object) : actions.Action :=
  match k with
  | IncomeKind => actions.updateIncome e
  | ExpenseKind => actions.updateExpense e
  | GoalKind => actions.updateGoal e
  end.

Definition deleteActionOf (k : EntityKind) (i : string) : actions.Action :=
  match k with
  | IncomeKind => actions.deleteIncome i
  | ExpenseKind => actions.deleteExpense i
  | GoalKind => actions.deleteGoal i
  end.

Definition addOf (k : EntityKind) :=
  match k with IncomeKind => addIncome | ExpenseKind => addExpense | GoalKind => addGoal end.

Definition updateOf (k : EntityKind) :=
  match k with
  | IncomeKind => updateIncome | ExpenseKind => updateExpense | GoalKind => updateGoal
  end.

Definition deleteOf (k : EntityKind) :=
  match k with
  | IncomeKind => deleteIncome | ExpenseKind => deleteExpense | GoalKind => deleteGoal
  end.

(** the actions dispatched before the first throw *)
Fixpoint dispatchedBeforeThrow (l : list Event) : list actions.Action :=
  match l with
  | [] => []
  | Raised _ :: _ => []
  | Dispatch a :: rest => a :: dispatchedBeforeThrow rest
  | _ :: rest => dispatchedBeforeThrow rest
  end.

(** ** Sample data *)

Definition freshPlan : UserPlan :=
  {| id := "default-plan"; income := []; expenses := []; goals := [];
     planRest := ∅ |}.

Definition idle : LoadingState :=
  {| isLoading := false; isSaving := false; isLoadingIncome := false;
     isLoadingExpenses := false; isLoadingGoals := false;
     isLoadingForecast := false |}.

Definition freshState : FinancialState :=
  {| userPlan := freshPlan; loading := idle; error := ∅;
     hasUnsavedChanges := false |}.

Definition salary : object :=
  {[ "id" := VStr "income-1000-i"; "amount" := VNum 100;
     "source" := VStr "job";
     "createdAt" := VStr "1970-01-01T00:00:02.000Z";
     "updatedAt" := VStr "1970-01-01T00:00:02.000Z" ]}.

Definition rent : object :=
  {[ "id" := VStr "expense-7-abc"; "amount" := VNum 900 ]}.

(** one income, one expense, changes not yet saved *)
Definition editedState : FinancialState :=
  {| userPlan := withExpenses (withIncome freshPlan [salary]) [rent];
     loading := idle; error := ∅; hasUnsavedChanges := true |}.

Definition saving : LoadingState :=
  {| isLoading := false; isSaving := true; isLoadingIncome := false;
     isLoadingExpenses := false; isLoadingGoals := false;
     isLoadingForecast := false |}.

(** the expense was removed while a manual save was in flight *)
Definition editedWhileSaving : FinancialState :=
  {| userPlan := withIncome freshPlan [salary];
     loading := saving; error := ∅; hasUnsavedChanges := true |}.

(** a storage module whose save assigns the id "plan-1" *)
Definition okStorage : Storage :=
  {| importStorage := Returned tt;
     loadFromStorage := Returned None;
     saveToStorage := fun p =>
       Returned {| id := "plan-1"; income := income p; expenses := expenses p;
                   goals := goals p; planRest := planRest p |} |}.

(** a storage module whose calls reject *)
Definition brokenStorage : Storage :=
  {| importStorage := Returned tt;
     loadFromStorage := Thrown (JsError "quota exceeded");
     saveToStorage := fun _ => Thrown (JsError "quota exceeded") |}.

(** what the plan looks like before anything was loaded or entered *)
Definition pristine (state : FinancialState) : Prop :=
  id (userPlan state) = "default-plan"
  /\ income (userPlan state) = []
  /\ expenses (userPlan state) = []
  /\ goals (userPlan state) = [].

(** how the import followed by the load settles *)
Definition loadOutcome (st : Storage) : completion (option UserPlan) :=
  match importStorage st with
  | Returned _ => loadFromStorage st
  | Thrown e => Thrown e
  end.

(** how the import followed by the save of [p] settles *)
Definition saveOutcome (st : Storage) (p : UserPlan) : completion UserPlan :=
  match importStorage st with
  | Returned _ => saveToStorage st p
  | Thrown e => Thrown e
  end.

(** which events are a set-error action of some domain *)
Definition isSetError (e : Event) : bool :=
  match e with
  | Dispatch (actions.setIncomeError _)
  | Dispatch (actions.setExpenseError _)
  | Dispatch (actions.setGoalError _) => true
  | _ => false
  end.

Definition isRaised (e : Event) : bool :=
  match e with Raised _ => true | _ => false end.

(** ** Characters of an identifier *)




(** ** Order of timestamps

    An ISO-8601 text is compared as a string, character by character.  For
    the comparison with the time values, the fields of a date are packed
    into one number. *)

Module DateOrder.

(** [P] holds on [start], [start + 1], ..., [len] numbers in all *)
Fixpoint checkRange (P : Z -> bool) (start : Z) (len : nat) : bool :=
  match len with
  | O => true
  | S len' => P start && checkRange P (start + 1) len'
  end.

(** the year of the era a day of the era falls in, as the algorithm
    computes it, and the first day of a year of the era *)
Definition yearOfEra (doe : Z) : Z :=
  (doe - doe / 1460 + doe / 36524 - doe / 146096) / 365.
Definition yearStart (y : Z) : Z := 365 * y + y / 4 - y / 100.
(** the last day of a year of the era; the era ends with the leap day of
    its last year *)
Definition yearEnd (y : Z) : Z :=
  if y =? 399 then 146096 else yearStart (y + 1) - 1.

(** month and day of the month of a day of the year (counted from March
    1st), with the carry into the civil year for January and February *)
Definition monthDay (doy : Z) : Z * Z * Z :=
  let mp := (5 * doy + 2) / 153 in
  let d := doy - (153 * mp + 2) / 5 + 1 in
  let m := if mp <? 10 then mp + 3 else mp - 9 in
  (if m <=? 2 then 1 else 0, m, d).

Definition yearDayKey (doy : Z) : Z :=
  let '(c, m, d) := monthDay doy in (c * 100 + m) * 100 + d.

(** year within the era, month and day of a day of the era, packed *)
Definition eraDayKey (doe : Z) : Z :=
  let '(y, m, d) := Date.civilFromEraDay doe in (y * 100 + m) * 100 + d.

(** year, month and day of a day number, packed *)
Definition dayKey (day : Z) : Z :=
  eraDayKey (Date.dayOfEra day) + 4000000 * Date.era day.

(** all the fields of a date and time, packed *)
Definition pack (y mo d h mi sec ms : Z) : Z :=
  (((((y * 100 + mo) * 100 + d) * 100 + h) * 100 + mi) * 100 + sec) * 1000 + ms.

Definition timeKey (t : Z) : Z :=
  pack (Date.YearFromTime t) (Date.MonthFromTime t) (Date.DateFromTime t)
       (Date.HourFromTime t) (Date.MinFromTime t) (Date.SecFromTime t)
       (Date.msFromTime t).

Definition monthDayInRange (doy : Z) : bool :=
  let '(_, m, d) := monthDay doy in
  (1 <=? m) && (m <=? 12) && (1 <=? d) && (d <=? 31).

Definition nextYearDayLarger (doy : Z) : bool :=
  yearDayKey doy <? yearDayKey (doy + 1).

(** the algorithm puts the first and the last day of a year into it, a
    year has 366 days at most and lies within the era *)
Definition yearBoundsRight (y : Z) : bool :=
  (yearOfEra (yearStart y) =? y) && (yearOfEra (yearEnd y) =? y)
  && (0 <=? yearStart y) && (yearStart y <=? yearEnd y)
  && (yearEnd y <=? yearStart y + 365) && (yearEnd y <=? 146096).
(** the time values of the years 0000 to 9999 *)
Definition fourDigitYear (t : Z) : Prop :=
  -62167219200000 <= t <= 253402300799999.

End DateOrder.

(** ** Two readings of the specification, to be compared with the code *)

(** An update of a missing id rejects before anything is dispatched and
    leaves the state as it was. *)
Definition update_missing_as_stated (k : EntityKind) (state : FinancialState)
    (now : Z) (input : object) : Prop :=
  let op := updateOf k state now input in
  settled op = Thrown (JsError (notFoundOf k))
  /\ dispatchedBeforeThrow (fst op) = []
  /\ stateAfter state op = state.


(** An update keeps every field the input does not supply, and its new
    [updatedAt] is not before the prior one. *)
Definition update_as_stated (existing input : object) (now : Z) : Prop :=
  let e := updatedEntity existing input now in
  (forall key, key <> "updatedAt" -> input !! key = None ->
     e !! key = existing !! key)
  /\ (forall prior current,
        get existing "updatedAt" = VStr prior ->
        get e "updatedAt" = VStr current ->
        String.leb prior current = true).

(** Commits less than 1000ms apart, each after a mutation, give exactly
    one call of the storage save, with the plan of the last one. *)
Definition debounce_as_stated (st : Storage) (cs : list (Z * FinancialState)) : Prop :=
  withinDebounce cs ->
  Forall (fun c => hasUnsavedChanges (snd c) = true) cs ->
  exists c, last cs = Some c
    /\ saveCalls st (settle (commits cs noTimers)) = [StorageSave (userPlan (snd c))].

(** ** The utility operations

    [regenerateForecast], [updateCurrentBalance], [updateForecastConfig],
    [resetAll] and [clearError] dispatch actions of their own.  Their log
    holds what was dispatched and what was thrown; the combinators are
    those of the entity operations, for any kind of log entry. *)

Module utility.

(** Modelled from the spec: the builders of ./actions that only the
    utility operations call; each one builds the action named after it
    from its arguments. *)
Inductive Action : Type :=
  | setLoadingForecast (b : bool)
  | setForecastError (message : string)
  | setGeneralError (message : string)
  | regenerateForecast
  | updateCurrentBalance (balance : value)
  | updateForecastConfig (config : object)
  | resetState.

End utility.

(** an action of either list *)
Inductive AnyAction : Type :=
  | core (a : actions.Action)
  | more (a : utility.Action).

Inductive UEvent : Type :=
  | UDispatch (a : AnyAction)
  | URaised (e : thrown).

Definition retL {E A : Type} (a : A) : list E * completion A := ([], Returned a).

Definition bindL {E A B : Type} (m : list E * completion A)
    (k : A -> list E * completion B) : list E * completion B :=
  match m with
  | (l, Returned a) => let '(l', r) := k a in (l ++ l', r)
  | (l, Thrown e) => (l, Thrown e)
  end.

Definition try_catchL {E A : Type} (body : list E * completion A)
    (handler : thrown -> list E * completion A) : list E * completion A :=
  match body with
  | (l, Returned a) => (l, Returned a)
  | (l, Thrown e) => let '(l', r) := handler e in (l ++ l', r)
  end.

Definition try_finallyL {E A : Type} (body : list E * completion A)
    (finalizer : list E * completion unit) : list E * completion A :=
  let '(l, r) := body in
  match finalizer with
  | (l', Returned _) => (l ++ l', r)
  | (l', Thrown e) => (l ++ l', Thrown e)
  end.

Definition try_catch_finallyL {E A : Type} (body : list E * completion A)
    (handler : thrown -> list E * completion A)
    (finalizer : list E * completion unit) : list E * completion A :=
  try_finallyL (try_catchL body handler) finalizer.

Definition U (A : Type) : Type := list UEvent * completion A.

Notation "m >> k" := (bindL m (fun _ => k))
  (at level 100, right associativity).

Definition throwU {A : Type} (e : thrown) : U A := ([URaised e], Thrown e).

Definition dispatchU (a : AnyAction) : U unit := ([UDispatch a], Returned tt).

Definition regenerateForecast : U unit :=
  try_catch_finallyL
    (dispatchU (more (utility.setLoadingForecast true)) >>
     dispatchU (core (actions.clearError (Some "forecastError"))) >>
     dispatchU (more utility.regenerateForecast))
    (fun error =>
       let errorMessage := errorMessage error "Failed to regenerate forecast" in
       dispatchU (more (utility.setForecastError errorMessage)) >>
       throwU error)
    (dispatchU (more (utility.setLoadingForecast false))).

Definition updateCurrentBalance (balance : value) : U unit :=
  try_catch_finallyL
    (dispatchU (core (actions.setSaving true)) >>
     dispatchU (core (actions.clearError (Some "generalError"))) >>
     dispatchU (more (utility.updateCurrentBalance balance)))
    (fun error =>
       let errorMessage := errorMessage error "Failed to update balance" in
       dispatchU (more (utility.setGeneralError errorMessage)) >>
       throwU error)
    (dispatchU (core (actions.setSaving false))).

Definition updateForecastConfig (config : object) : U unit :=
  try_catch_finallyL
    (dispatchU (more (utility.setLoadingForecast true)) >>
     dispatchU (core (actions.clearError (Some "forecastError"))) >>
     dispatchU (more (utility.updateForecastConfig config)))
    (fun error =>
       let errorMessage := errorMessage error "Failed to update forecast config" in
       dispatchU (more (utility.setForecastError errorMessage)) >>
       throwU error)
    (dispatchU (more (utility.setLoadingForecast false))).

Definition resetAll : U unit := dispatchU (more utility.resetState).

Definition clearError (errorType : option string) : U unit :=
  dispatchU (core (actions.clearError errorType)).

(** the actions a utility operation dispatched, in order *)
Definition dispatchedU (l : list UEvent) : list AnyAction :=
  omap (fun e => match e with UDispatch a => Some a | _ => None end) l.

Definition isRaisedU (e : UEvent) : bool :=
  match e with URaised _ => true | _ => false end.

(** which actions record an error *)
Definition isErrorAction (a : AnyAction) : bool :=
  match a with
  | core (actions.setIncomeError _) | core (actions.setExpenseError _)
  | core (actions.setGoalError _) | core (actions.loadError _)
  | core (actions.saveError _)
  | more (utility.setForecastError _) | more (utility.setGeneralError _) => true
  | _ => false
  end.

(** ** The accessor hooks

    [context] is what [useContext(FinancialContext)] returns: the value
    of the nearest provider, or nothing ([undefined]) outside of one.  The
    value holds the state, the dispatch function and the sixteen
    operations; [financialSummary] is the field of the state the last hook
    reads. *)

Module hooks.
Section Hooks.

Variables Dispatcher Operations Summary : Type.
Variable financialSummary : FinancialState -> Summary.






End Hooks.
End hooks.

(** ** Storage calls and time order, for the statements below *)

Definition isStorageEvent (e : Event) : bool :=
  match e with
  | ImportStorage | StorageLoad | StorageSave _ => true
  | _ => false
  end.

(** what an operation asked of the storage module, in order *)
Definition storageCalls (l : list Event) : list Event :=
  List.filter isStorageEvent l.

Definition isConsoleError (e : Event) : bool :=
  match e with ConsoleError _ _ => true | _ => false end.


(** consecutive runs of the effect are more than 1000ms apart *)
Fixpoint spacedOut (cs : list (Z * FinancialState)) : Prop :=
  match cs with
  | c1 :: ((c2 :: _) as rest) => fst c1 + 1000 < fst c2 /\ spacedOut rest
  | _ => True
  end.

(** no character of the string is a hyphen *)
Fixpoint noHyphen (s : string) : bool :=
  match s with
  | EmptyString => true
  | String c rest => negb (Ascii.eqb c "-") && noHyphen rest
  end.

(** ** Inputs whose properties are read by code

    The caller's input is an object of the caller: a property of it may
    be an accessor, and reading an accessor runs the caller's code, which
    may throw.  [liveObject] lists the own enumerable properties in their
    order; an accessor is given by how its getter completes. *)

Inductive property : Type :=
  | DataProperty (v : value)
  | Accessor (getter : completion value).

Abbreviation liveObject := (list (string * property)).

Definition readValue (p : property) : completion value :=
  match p with
  | DataProperty v => Returned v
  | Accessor getter => getter
  end.

(** [o[k]] *)
Fixpoint readProperty (o : liveObject) (k : string) : completion value :=
  match o with
  | [] => Returned VUndefined
  | (k', p) :: rest =>
      if String.eqb k' k then readValue p else readProperty rest k
  end.

(** what [{ ...o }] copies: every property is read, in order, and the
    first getter that throws ends the copy *)
Fixpoint readProperties (o : liveObject) : completion object :=
  match o with
  | [] => Returned ∅
  | (k, p) :: rest =>
      match readValue p with
      | Thrown e => Thrown e
      | Returned v =>
          match readProperties rest with
          | Thrown e => Thrown e
          | Returned copied => Returned ({[k := v]} ∪ copied)
          end
      end
  end.

(** an object of plain data, as an input *)
Definition ofPlain (o : object) : liveObject :=
  map (fun kv => (fst kv, DataProperty (snd kv))) (map_to_list o).

(** an expression that may throw, inside an operation *)
Definition evaluate {A : Type} (c : completion A) : M A :=
  match c with
  | Returned a => ret a
  | Thrown e => throw e
  end.

(** The add and the update operations once more, with the reads of the
    input where the source has them: the copy of the input in the object
    literal, and [input.id] in the callback of [find], once for every
    entity that is looked at. *)
Module live.

Fixpoint findById (seq : list object) (input : liveObject)
    : completion (option object) :=
  match seq with
  | [] => Returned None
  | x :: rest =>
      match readProperty input "id" with
      | Thrown e => Thrown e
      | Returned inputId =>
          if strict_eq (get x "id") inputId then Returned (Some x)
          else findById rest input
      end
  end.

Definition addIncome (nowId : Z) (random36 : string) (nowCreated nowUpdated : Z)
    (incomeInput : liveObject) : M unit :=
  try_catch_finally
    (dispatch (actions.setLoadingIncome true);;
     dispatch (actions.clearError (Some "incomeError"));;
     copied <- evaluate (readProperties incomeInput);;
     let newIncome :=
       newEntity "income" nowId random36 nowCreated nowUpdated copied in
     dispatch (actions.addIncome newIncome))
    (fun error =>
       let errorMessage := errorMessage error "Failed to add income" in
       dispatch (actions.setIncomeError errorMessage);;
       throw error)
    (dispatch (actions.setLoadingIncome false)).

Definition addExpense (nowId : Z) (random36 : string) (nowCreated nowUpdated : Z)
    (expenseInput : liveObject) : M unit :=
  try_catch_finally
    (dispatch (actions.setLoadingExpenses true);;
     dispatch (actions.clearError (Some "expenseError"));;
     copied <- evaluate (readProperties expenseInput);;
     let newExpense :=
       newEntity "expense" nowId random36 nowCreated nowUpdated copied in
     dispatch (actions.addExpense newExpense))
    (fun error =>
       let errorMessage := errorMessage error "Failed to add expense" in
       dispatch (actions.setExpenseError errorMessage);;
       throw error)
    (dispatch (actions.setLoadingExpenses false)).

Definition addGoal (nowId : Z) (random36 : string) (nowCreated nowUpdated : Z)
    (goalInput : liveObject) : M unit :=
  try_catch_finally
    (dispatch (actions.setLoadingGoals true);;
     dispatch (actions.clearError (Some "goalError"));;
     copied <- evaluate (readProperties goalInput);;
     let newGoal :=
       newEntity "goal" nowId random36 nowCreated nowUpdated copied in
     dispatch (actions.addGoal newGoal))
    (fun error =>
       let errorMessage := errorMessage error "Failed to add goal" in
       dispatch (actions.setGoalError errorMessage);;
       throw error)
    (dispatch (actions.setLoadingGoals false)).

Definition updateIncome (state : FinancialState) (now : Z)
    (incomeInput : liveObject) : M unit :=
  try_catch_finally
    (dispatch (actions.setLoadingIncome true);;
     dispatch (actions.clearError (Some "incomeError"));;
     existingIncome <- evaluate (findById (income (userPlan state)) incomeInput);;
     match existingIncome with
     | None => throw (JsError "Income not found")
     | Some existingIncome =>
         copied <- evaluate (readProperties incomeInput);;
         let updatedIncome := updatedEntity existingIncome copied now in
         dispatch (actions.updateIncome updatedIncome)
     end)
    (fun error =>
       let errorMessage := errorMessage error "Failed to update income" in
       dispatch (actions.setIncomeError errorMessage);;
       throw error)
    (dispatch (actions.setLoadingIncome false)).

Definition updateExpense (state : FinancialState) (now : Z)
    (expenseInput : liveObject) : M unit :=
  try_catch_finally
    (dispatch (actions.setLoadingExpenses true);;
     dispatch (actions.clearError (Some "expenseError"));;
     existingExpense <-
       evaluate (findById (expenses (userPlan state)) expenseInput);;
     match existingExpense with
     | None => throw (JsError "Expense not found")
     | Some existingExpense =>
         copied <- evaluate (readProperties expenseInput);;
         let updatedExpense := updatedEntity existingExpense copied now in
         dispatch (actions.updateExpense updatedExpense)
     end)
    (fun error =>
       let errorMessage := errorMessage error "Failed to update expense" in
       dispatch (actions.setExpenseError errorMessage);;
       throw error)
    (dispatch (actions.setLoadingExpenses false)).

Definition updateGoal (state : FinancialState) (now : Z)
    (goalInput : liveObject) : M unit :=
  try_catch_finally
    (dispatch (actions.setLoadingGoals true);;
     dispatch (actions.clearError (Some "goalError"));;
     existingGoal <- evaluate (findById (goals (userPlan state)) goalInput);;
     match existingGoal with
     | None => throw (JsError "Goal not found")
     | Some existingGoal =>
         copied <- evaluate (readProperties goalInput);;
         let updatedGoal := updatedEntity existingGoal copied now in
         dispatch (actions.updateGoal updatedGoal)
     end)
    (fun error =>
       let errorMessage := errorMessage error "Failed to update goal" in
       dispatch (actions.setGoalError errorMessage);;
       throw error)
    (dispatch (actions.setLoadingGoals false)).

Definition addOf (k : EntityKind) :=
  match k with IncomeKind => addIncome | ExpenseKind => addExpense | GoalKind => addGoal end.

Definition updateOf (k : EntityKind) :=
  match k with
  | IncomeKind => updateIncome | ExpenseKind => updateExpense | GoalKind => updateGoal
  end.

End live.

(** the text an add or an update records when what was thrown is no Error *)
Definition addFallbackOf (k : EntityKind) : string :=
  match k with
  | IncomeKind => "Failed to add income"
  | ExpenseKind => "Failed to add expense"
  | GoalKind => "Failed to add goal"
  end.

Definition updateFallbackOf (k : EntityKind) : string :=
  match k with
  | IncomeKind => "Failed to update income"
  | ExpenseKind => "Failed to update expense"
  | GoalKind => "Failed to update goal"
  end.

(** an input with one property, whose getter throws *)
Definition brokenInput : liveObject :=
  [("source", DataProperty (VStr "job"));
   ("amount", Accessor (Thrown (JsError "amount is not available")))].

(** An add and a delete always resolve and never dispatch a set-error
    action, whatever they are given. *)
Definition add_delete_as_stated (k : EntityKind) (nowId : Z) (random36 : string)
    (nowCreated nowUpdated : Z) (input : liveObject) (i : string) : Prop :=
  let add := live.addOf k nowId random36 nowCreated nowUpdated input in
  let del := deleteOf k i in
  (settled add = Returned tt /\ existsb isSetError (fst add) = false)
  /\ (settled del = Returned tt /\ existsb isSetError (fst del) = false).

(** * Properties *)

(** ** Dates *)

Example toISOString_epoch : Date.toISOString 0 = "1970-01-01T00:00:00.000Z".
Proof. reflexivity. Qed.

Example toISOString_2026 :
  Date.toISOString 1793560210123 = "2026-11-01T19:10:10.123Z".
Proof. vm_compute. reflexivity. Qed.

Example toISOString_leap :
  Date.toISOString 951782400000 = "2000-02-29T00:00:00.000Z".
Proof. vm_compute. reflexivity. Qed.

Example toISOString_before_epoch :
  Date.toISOString (-1) = "1969-12-31T23:59:59.999Z".
Proof. vm_compute. reflexivity. Qed.

(** ** ISO-8601 texts compare like the times they stand for *)

Module DateFacts.
Import Date DateOrder.

Lemma lex_compare (B hi1 lo1 hi2 lo2 : Z) :
  0 <= lo1 < B -> 0 <= lo2 < B ->
  (hi1 * B + lo1 ?= hi2 * B + lo2)
  = match hi1 ?= hi2 with Eq => lo1 ?= lo2 | c => c end.
Proof.
  intros H1 H2. destruct (Z.compare_spec hi1 hi2) as [-> | Hlt | Hgt].
  - apply Z.add_compare_mono_l.
  - apply Z.compare_lt_iff. nia.
  - apply Z.compare_gt_iff. nia.
Qed.

Lemma digit_compare (x y : Z) :
  0 <= x <= 9 -> 0 <= y <= 9 ->
  Ascii.compare (digit x) (digit y) = (x ?= y).
Proof.
  intros Hx Hy. unfold Ascii.compare, digit.
  rewrite !N_ascii_embedding by lia.
  rewrite <- N2Z.inj_compare, !N2Z.inj_add, !Z2N.id by lia.
  apply Z.add_compare_mono_l.
Qed.

Lemma length_digits (w : nat) (n : Z) : String.length (digits w n) = w.
Proof. induction w as [| w IH]; simpl; [reflexivity | rewrite IH; reflexivity]. Qed.

Lemma digits_compare (w : nat) (a b : Z) :
  String.compare (digits w a) (digits w b)
  = (a mod 10 ^ Z.of_nat w ?= b mod 10 ^ Z.of_nat w).
Proof.
  induction w as [| w IH].
  - simpl. rewrite !Z.mod_1_r. reflexivity.
  - cbn [digits String.compare].
    assert (Hpos : 0 < 10 ^ Z.of_nat w) by (apply Z.pow_pos_nonneg; lia).
    rewrite digit_compare
      by (split; [apply Z.mod_pos_bound; lia
                 | pose proof (Z.mod_pos_bound (a / 10 ^ Z.of_nat w) 10);
                   pose proof (Z.mod_pos_bound (b / 10 ^ Z.of_nat w) 10); lia]).
    rewrite IH.
    replace (10 ^ Z.of_nat (S w)) with (10 ^ Z.of_nat w * 10)
      by (rewrite Nat2Z.inj_succ, Z.pow_succ_r; lia).
    rewrite !Z.rem_mul_r by lia.
    rewrite (Z.add_comm (a mod _)), (Z.add_comm (b mod _)).
    rewrite !(Z.mul_comm (10 ^ Z.of_nat w)).
    symmetry. apply lex_compare; apply Z.mod_pos_bound; lia.
Qed.

Lemma digits_compare_small (w : nat) (a b : Z) :
  0 <= a < 10 ^ Z.of_nat w -> 0 <= b < 10 ^ Z.of_nat w ->
  String.compare (digits w a) (digits w b) = (a ?= b).
Proof. intros Ha Hb. rewrite digits_compare, !Z.mod_small by assumption. reflexivity. Qed.

Lemma compare_app (a1 a2 b1 b2 : string) :
  String.length a1 = String.length a2 ->
  String.compare (a1 +:+ b1) (a2 +:+ b2)
  = match String.compare a1 a2 with Eq => String.compare b1 b2 | c => c end.
Proof.
  revert a2. induction a1 as [| c1 a1 IH]; intros [| c2 a2] Hlen;
    try discriminate; simpl; [reflexivity |].
  destruct (Ascii.compare c1 c2); try reflexivity.
  apply IH. simpl in Hlen. congruence.
Qed.

Lemma compare_refl (a : string) : String.compare a a = Eq.
Proof.
  induction a as [| c a IH]; simpl; [reflexivity |].
  unfold Ascii.compare. rewrite N.compare_refl. exact IH.
Qed.

Lemma compare_same_prefix (a b1 b2 : string) :
  String.compare (a +:+ b1) (a +:+ b2) = String.compare b1 b2.
Proof. rewrite compare_app by reflexivity. rewrite compare_refl. reflexivity. Qed.

(** the text of a date and time with a four-digit year *)
Lemma render_compare (y1 mo1 d1 h1 mi1 s1 ms1 y2 mo2 d2 h2 mi2 s2 ms2 : Z) :
  0 <= y1 < 10000 -> 0 <= y2 < 10000 ->
  0 <= mo1 < 100 -> 0 <= mo2 < 100 -> 0 <= d1 < 100 -> 0 <= d2 < 100 ->
  0 <= h1 < 100 -> 0 <= h2 < 100 -> 0 <= mi1 < 100 -> 0 <= mi2 < 100 ->
  0 <= s1 < 100 -> 0 <= s2 < 100 -> 0 <= ms1 < 1000 -> 0 <= ms2 < 1000 ->
  String.compare
    (digits 4 y1 +:+ "-" +:+ digits 2 mo1 +:+ "-" +:+ digits 2 d1
       +:+ "T" +:+ digits 2 h1 +:+ ":" +:+ digits 2 mi1
       +:+ ":" +:+ digits 2 s1 +:+ "." +:+ digits 3 ms1 +:+ "Z")
    (digits 4 y2 +:+ "-" +:+ digits 2 mo2 +:+ "-" +:+ digits 2 d2
       +:+ "T" +:+ digits 2 h2 +:+ ":" +:+ digits 2 mi2
       +:+ ":" +:+ digits 2 s2 +:+ "." +:+ digits 3 ms2 +:+ "Z")
  = (pack y1 mo1 d1 h1 mi1 s1 ms1 ?= pack y2 mo2 d2 h2 mi2 s2 ms2).
Proof.
  intros. unfold pack.
  rewrite !lex_compare by lia.
  repeat (rewrite compare_app by (rewrite !length_digits; reflexivity);
          rewrite compare_same_prefix).
  rewrite compare_app by (rewrite !length_digits; reflexivity).
  rewrite !digits_compare_small by (simpl; lia).
  repeat match goal with
         | |- context [?a ?= ?b] => destruct (a ?= b)
         end; reflexivity.
Qed.

Lemma checkRange_spec (P : Z -> bool) (len : nat) (start i : Z) :
  checkRange P start len = true ->
  start <= i < start + Z.of_nat len -> P i = true.
Proof.
  revert start. induction len as [| len IH]; intros start Hc Hi; [lia |].
  simpl in Hc. apply andb_true_iff in Hc as [Hs Hc].
  destruct (Z.eq_dec i start) as [-> | Hne]; [exact Hs |].
  apply (IH (start + 1)); [exact Hc | lia].
Qed.

Lemma civilFromEraDay_split (doe : Z) :
  civilFromEraDay doe
  = let y := yearOfEra doe in
    let '(c, m, d) := monthDay (doe - yearStart y) in (y + c, m, d).
Proof. reflexivity. Qed.

Lemma eraDayKey_split (doe : Z) :
  eraDayKey doe
  = yearOfEra doe * 10000 + yearDayKey (doe - yearStart (yearOfEra doe)).
Proof.
  unfold eraDayKey, yearDayKey. rewrite civilFromEraDay_split. cbv zeta.
  destruct (monthDay _) as [[c m] d]. ring.
Qed.

Lemma monthDayInRange_all : checkRange monthDayInRange 0 366 = true.
Proof. vm_compute. reflexivity. Qed.

Lemma nextYearDayLarger_all : checkRange nextYearDayLarger 0 365 = true.
Proof. vm_compute. reflexivity. Qed.

Lemma yearBoundsRight_all : checkRange yearBoundsRight 0 400 = true.
Proof. vm_compute. reflexivity. Qed.

Lemma yearDayKey_increasing (i j : Z) :
  0 <= i -> i < j -> j <= 365 -> yearDayKey i < yearDayKey j.
Proof.
  intros Hi Hij Hj.
  replace j with (i + 1 + Z.of_nat (Z.to_nat (j - i - 1))) in * by lia.
  assert (Hnext : forall d, 0 <= d < 365 -> yearDayKey d < yearDayKey (d + 1)).
  { intros d Hd. apply Z.ltb_lt.
    apply (checkRange_spec nextYearDayLarger 365 0 d nextYearDayLarger_all). lia. }
  induction (Z.to_nat (j - i - 1)) as [| n IH].
  - rewrite Z.add_0_r. apply Hnext. simpl in Hj. lia.
  - apply Z.lt_trans with (yearDayKey (i + 1 + Z.of_nat n)).
    + apply IH; lia.
    + replace (i + 1 + Z.of_nat (S n)) with (i + 1 + Z.of_nat n + 1) by lia.
      apply Hnext. lia.
Qed.

Lemma yearOfEra_next (doe : Z) :
  0 <= doe < 146096 -> yearOfEra doe <= yearOfEra (doe + 1).
Proof.
  intros H. unfold yearOfEra. apply Z.div_le_mono; [lia |].
  Z.div_mod_to_equations. lia.
Qed.

Lemma yearOfEra_mono (i j : Z) :
  0 <= i -> i <= j -> j <= 146096 -> yearOfEra i <= yearOfEra j.
Proof.
  intros Hi Hij Hj.
  replace j with (i + Z.of_nat (Z.to_nat (j - i))) in * by lia.
  induction (Z.to_nat (j - i)) as [| n IH].
  - rewrite Z.add_0_r. lia.
  - apply Z.le_trans with (yearOfEra (i + Z.of_nat n)).
    + apply IH; lia.
    + replace (i + Z.of_nat (S n)) with (i + Z.of_nat n + 1) by lia.
      apply yearOfEra_next. lia.
Qed.

(** a day of the era lies within the year the algorithm computes for it *)
Lemma yearOfEra_bounds (doe : Z) :
  0 <= doe <= 146096 ->
  0 <= yearOfEra doe <= 399
  /\ yearStart (yearOfEra doe) <= doe <= yearStart (yearOfEra doe) + 365.
Proof.
  intros H.
  assert (Hy : 0 <= yearOfEra doe <= 399).
  { change 0 with (yearOfEra 0) at 1. change 399 with (yearOfEra 146096).
    split; apply yearOfEra_mono; lia. }
  split; [exact Hy |].
  assert (Hok : forall y, 0 <= y <= 399 ->
            yearOfEra (yearStart y) = y /\ yearOfEra (yearEnd y) = y
            /\ 0 <= yearStart y <= yearEnd y
            /\ yearEnd y <= yearStart y + 365 /\ yearEnd y <= 146096).
  { intros y Hr.
    pose proof (checkRange_spec _ _ _ y yearBoundsRight_all ltac:(lia)) as Hc.
    unfold yearBoundsRight in Hc.
    rewrite !andb_true_iff, !Z.eqb_eq, !Z.leb_le in Hc. tauto. }
  set (y := yearOfEra doe) in *.
  destruct (Hok y Hy) as (Hs & He & Hse & Hlen & Hera).
  split.
  - destruct (Z.lt_ge_cases doe (yearStart y)) as [Hlt | ?]; [| lia].
    assert (1 <= y).
    { destruct (Z.eq_dec y 0) as [E | ?]; [| lia].
      rewrite E in Hlt. change (yearStart 0) with 0 in Hlt. lia. }
    destruct (Hok (y - 1) ltac:(lia)) as (_ & Hpe & Hpse & _ & Hpera).
    assert (Hend : yearEnd (y - 1) = yearStart y - 1).
    { unfold yearEnd. destruct (Z.eqb_spec (y - 1) 399); [lia |].
      replace (y - 1 + 1) with y by lia. reflexivity. }
    pose proof (yearOfEra_mono doe (yearEnd (y - 1)) ltac:(lia) ltac:(lia)
                  ltac:(lia)) as Hm.
    fold y in Hm. lia.
  - destruct (Z.lt_ge_cases (yearStart y + 365) doe) as [Hgt | ?]; [| lia].
    assert (y < 399).
    { destruct (Z.eq_dec y 399) as [E | ?]; [| lia].
      rewrite E in *. change (yearEnd 399) with 146096 in Hlen. lia. }
    destruct (Hok (y + 1) ltac:(lia)) as (Hns & _ & Hnse & _ & Hnera).
    assert (Hend : yearEnd y = yearStart (y + 1) - 1).
    { unfold yearEnd. destruct (Z.eqb_spec y 399); [lia | reflexivity]. }
    pose proof (yearOfEra_mono (yearStart (y + 1)) doe ltac:(lia) ltac:(lia)
                  ltac:(lia)) as Hm.
    fold y in Hm. lia.
Qed.

Lemma month_date_range (doe : Z) :
  0 <= doe < 146097 ->
  let '(_, m, d) := civilFromEraDay doe in 1 <= m <= 12 /\ 1 <= d <= 31.
Proof.
  intros H. rewrite civilFromEraDay_split. cbv zeta.
  destruct (yearOfEra_bounds doe ltac:(lia)) as [_ Hd].
  pose proof (checkRange_spec _ _ _ (doe - yearStart (yearOfEra doe))
                monthDayInRange_all ltac:(lia)) as Hc.
  unfold monthDayInRange in Hc.
  destruct (monthDay _) as [[c m] d].
  rewrite !andb_true_iff, !Z.leb_le in Hc. lia.
Qed.

Lemma eraDayKey_increasing (i j : Z) :
  0 <= i -> i < j -> j <= 146096 -> eraDayKey i < eraDayKey j.
Proof.
  intros Hi Hij Hj. rewrite !eraDayKey_split.
  destruct (yearOfEra_bounds i ltac:(lia)) as [_ Hdi].
  destruct (yearOfEra_bounds j ltac:(lia)) as [_ Hdj].
  pose proof (yearOfEra_mono i j ltac:(lia) ltac:(lia) ltac:(lia)) as Hy.
  assert (Hk : forall d, 0 <= d <= 365 -> 301 <= yearDayKey d <= 10229).
  { intros d Hd. change 301 with (yearDayKey 0). change 10229 with (yearDayKey 365).
    destruct (Z.eq_dec d 0) as [-> | ?];
      [pose proof (yearDayKey_increasing 0 365); lia |].
    destruct (Z.eq_dec d 365) as [-> | ?];
      [pose proof (yearDayKey_increasing 0 365); lia |].
    pose proof (yearDayKey_increasing 0 d).
    pose proof (yearDayKey_increasing d 365). lia. }
  pose proof (Hk (i - yearStart (yearOfEra i)) ltac:(lia)).
  pose proof (Hk (j - yearStart (yearOfEra j)) ltac:(lia)).
  destruct (Z.eq_dec (yearOfEra i) (yearOfEra j)) as [Heq | Hne].
  - rewrite Heq in *.
    pose proof (yearDayKey_increasing (i - yearStart (yearOfEra j))
                  (j - yearStart (yearOfEra j))). lia.
  - lia.
Qed.
Lemma dayOfEra_range (day : Z) : 0 <= dayOfEra day < 146097.
Proof. unfold dayOfEra. apply Z.mod_pos_bound. lia. Qed.

(** a later day has a larger key, in every era *)
Lemma dayKey_increasing (d1 d2 : Z) : d1 < d2 -> dayKey d1 < dayKey d2.
Proof.
  intros H. unfold dayKey, era.
  pose proof (dayOfEra_range d1) as H1. pose proof (dayOfEra_range d2) as H2.
  assert (Hq : (d1 + 719468) / 146097 <= (d2 + 719468) / 146097)
    by (apply Z.div_le_mono; lia).
  pose proof (Z.div_mod (d1 + 719468) 146097 ltac:(lia)) as E1.
  pose proof (Z.div_mod (d2 + 719468) 146097 ltac:(lia)) as E2.
  fold (dayOfEra d1) in E1. fold (dayOfEra d2) in E2.
  assert (Hlo : forall r, 0 <= r < 146097 -> 301 <= eraDayKey r <= 4000229).
  { intros r Hr. change 301 with (eraDayKey 0).
    change 4000229 with (eraDayKey 146096).
    destruct (Z.eq_dec r 0) as [-> | ?]; [split; [lia |] |].
    - pose proof (eraDayKey_increasing 0 146096). lia.
    - destruct (Z.eq_dec r 146096) as [-> | ?].
      + pose proof (eraDayKey_increasing 0 146096). lia.
      + pose proof (eraDayKey_increasing 0 r).
        pose proof (eraDayKey_increasing r 146096). lia. }
  pose proof (Hlo _ H1). pose proof (Hlo _ H2).
  destruct (Z.eq_dec ((d1 + 719468) / 146097) ((d2 + 719468) / 146097))
    as [Heq | Hne].
  - rewrite Heq in *.
    pose proof (eraDayKey_increasing (dayOfEra d1) (dayOfEra d2)). lia.
  - lia.
Qed.

(** one more field under an increasing key keeps it increasing *)
Lemma step_increasing (g : Z -> Z) (B C : Z) :
  0 < B <= C ->
  (forall p q, p < q -> g p < g q) ->
  forall x y, x < y -> g (x / B) * C + x mod B < g (y / B) * C + y mod B.
Proof.
  intros HB Hg x y Hxy.
  pose proof (Z.div_mod x B ltac:(lia)) as Ex.
  pose proof (Z.div_mod y B ltac:(lia)) as Ey.
  pose proof (Z.mod_pos_bound x B ltac:(lia)) as Bx.
  pose proof (Z.mod_pos_bound y B ltac:(lia)) as By.
  assert (Hq : x / B <= y / B) by (apply Z.div_le_mono; lia).
  destruct (Z.eq_dec (x / B) (y / B)) as [Heq | Hne].
  - rewrite Heq in *. nia.
  - specialize (Hg (x / B) (y / B) ltac:(lia)). nia.
Qed.

Lemma dayKey_fields (t : Z) :
  dayKey (Day t)
  = (YearFromTime t * 100 + MonthFromTime t) * 100 + DateFromTime t.
Proof.
  unfold dayKey, eraDayKey, YearFromTime, MonthFromTime, DateFromTime.
  destruct (civilFromEraDay (dayOfEra (Day t))) as [[y m] d]. simpl. ring.
Qed.

Lemma timeKey_layers (t : Z) :
  timeKey t
  = (((dayKey (t / 1000 / 60 / 60 / 24) * 100 + (t / 1000 / 60 / 60) mod 24) * 100
      + (t / 1000 / 60) mod 60) * 100
     + (t / 1000) mod 60) * 1000
    + t mod 1000.
Proof.
  unfold timeKey, pack. rewrite <- dayKey_fields.
  unfold Day, msPerDay, HourFromTime, MinFromTime, SecFromTime, msFromTime.
  rewrite !Z.div_div by lia. reflexivity.
Qed.

(** a later time has a larger key *)
Lemma timeKey_increasing (t1 t2 : Z) : t1 < t2 -> timeKey t1 < timeKey t2.
Proof.
  rewrite !timeKey_layers. revert t1 t2.
  apply (step_increasing
           (fun q => ((dayKey (q / 60 / 60 / 24) * 100 + (q / 60 / 60) mod 24) * 100
                      + (q / 60) mod 60) * 100 + q mod 60) 1000 1000); [lia |].
  apply (step_increasing
           (fun q => (dayKey (q / 60 / 24) * 100 + (q / 60) mod 24) * 100
                     + q mod 60) 60 100); [lia |].
  apply (step_increasing
           (fun q => dayKey (q / 24) * 100 + q mod 24) 60 100); [lia |].
  apply (step_increasing dayKey 24 100); [lia |].
  exact dayKey_increasing.
Qed.

Lemma timeKey_compare (t1 t2 : Z) : (timeKey t1 ?= timeKey t2) = (t1 ?= t2).
Proof.
  destruct (Z.compare_spec t1 t2) as [-> | Hlt | Hgt].
  - apply Z.compare_refl.
  - apply Z.compare_lt_iff, timeKey_increasing, Hlt.
  - apply Z.compare_gt_iff, timeKey_increasing, Hgt.
Qed.

Lemma month_date_of_time (t : Z) :
  1 <= MonthFromTime t <= 12 /\ 1 <= DateFromTime t <= 31.
Proof.
  unfold MonthFromTime, DateFromTime.
  pose proof (month_date_range _ (dayOfEra_range (Day t))) as H.
  destruct (civilFromEraDay (dayOfEra (Day t))) as [[y m] d]. exact H.
Qed.

(** the times of [fourDigitYear] are those of the years 0000 to 9999 *)
Lemma year_range (t : Z) : fourDigitYear t -> 0 <= YearFromTime t <= 9999.
Proof.
  unfold fourDigitYear. intros Ht.
  pose proof (month_date_of_time t) as Hmd.
  pose proof (dayKey_fields t) as Hk.
  assert (Hlo : dayKey (-719528) <= dayKey (Day t)).
  { assert (-719528 <= Day t).
    { change (-719528) with (Day (-62167219200000)).
      apply Z.div_le_mono; [reflexivity | lia]. }
    destruct (Z.eq_dec (-719528) (Day t)) as [<- | ?]; [lia |].
    apply Z.lt_le_incl, dayKey_increasing. lia. }
  assert (Hhi : dayKey (Day t) <= dayKey 2932896).
  { assert (Day t <= 2932896).
    { change 2932896 with (Day 253402300799999).
      apply Z.div_le_mono; [reflexivity | lia]. }
    destruct (Z.eq_dec (Day t) 2932896) as [-> | ?]; [lia |].
    apply Z.lt_le_incl, dayKey_increasing. lia. }
  change (dayKey (-719528)) with 101 in Hlo.
  change (dayKey 2932896) with 99991231 in Hhi.
  lia.
Qed.

(** ISO-8601 texts of four-digit years compare as strings the way their
    times compare as numbers *)
Theorem toISOString_compare (t1 t2 : Z) :
  fourDigitYear t1 -> fourDigitYear t2 ->
  String.compare (toISOString t1) (toISOString t2) = (t1 ?= t2).
Proof.
  intros H1 H2. rewrite <- timeKey_compare.
  pose proof (year_range t1 H1) as Hy1. pose proof (year_range t2 H2) as Hy2.
  pose proof (month_date_of_time t1). pose proof (month_date_of_time t2).
  unfold toISOString, yearString, timeKey.
  replace ((0 <=? YearFromTime t1) && (YearFromTime t1 <=? 9999)) with true
    by (symmetry; apply andb_true_iff; rewrite !Z.leb_le; lia).
  replace ((0 <=? YearFromTime t2) && (YearFromTime t2 <=? 9999)) with true
    by (symmetry; apply andb_true_iff; rewrite !Z.leb_le; lia).
  apply render_compare; try lia;
    unfold HourFromTime, MinFromTime, SecFromTime, msFromTime;
    match goal with
    | |- 0 <= ?a mod ?b < _ =>
        pose proof (Z.mod_pos_bound a b ltac:(lia)); lia
    end.
Qed.

Corollary toISOString_leb (t1 t2 : Z) :
  fourDigitYear t1 -> fourDigitYear t2 ->
  String.leb (toISOString t1) (toISOString t2) = (t1 <=? t2).
Proof.
  intros H1 H2. unfold String.leb, Z.leb.
  rewrite toISOString_compare by assumption. reflexivity.
Qed.


End DateFacts.

(** ** Pristine plans and eligibility *)

Lemma length_zero_nil {A : Type} (l : list A) : (length l =? 0)%nat = true <-> l = [].
Proof. destruct l; simpl; split; intros H; try reflexivity; discriminate. Qed.

Lemma isPristine_spec (state : FinancialState) :
  isPristine state = true <-> pristine state.
Proof.
  unfold isPristine, pristine.
  rewrite !andb_true_iff, !length_zero_nil, String.eqb_eq. tauto.
Qed.

Lemma hasRealData_isPristine (state : FinancialState) :
  hasRealData state = negb (isPristine state).
Proof.
  unfold hasRealData, isPristine.
  destruct (String.eqb _ _); simpl; [| reflexivity].
  destruct (income (userPlan state)); simpl; [| reflexivity].
  destruct (expenses (userPlan state)); simpl; [| reflexivity].
  destruct (goals (userPlan state)); reflexivity.
Qed.

Lemma isPristine_false (state : FinancialState) :
  isPristine state = false <-> ~ pristine state.
Proof.
  rewrite <- isPristine_spec. destruct (isPristine state); split; intros H;
    try reflexivity; try discriminate; try (intros ?; discriminate).
  exfalso. apply H. reflexivity.
Qed.

(** a timer set by the effect is due 1000ms later and closes over the
    state of that run *)
Lemma autoSaveEffect_Some (now : Z) (state : FinancialState) (x : Timeout) :
  autoSaveEffect now state = Some x ->
  x = {| dueAt := now + 1000; closure := state |}.
Proof.
  unfold autoSaveEffect. destruct (_ && _); [| discriminate].
  intros [= <-]. reflexivity.
Qed.

(** C4: the auto-save effect sets its timer exactly when the plan is not
    pristine, nothing is loading, nothing is saving and there are unsaved
    changes; the timer is due 1000ms later and closes over the state of
    this run.  In every other case (loading, saving, pristine plan, or no
    unsaved changes) the effect sets no timer. *)
Theorem autoSave_schedules_iff_eligible (now : Z) (state : FinancialState) :
  (autoSaveEffect now state = Some {| dueAt := now + 1000; closure := state |}
   <-> ~ pristine state
       /\ isLoading (loading state) = false
       /\ isSaving (loading state) = false
       /\ hasUnsavedChanges state = true)
  /\ (autoSaveEffect now state = None
      <-> isLoading (loading state) = true
          \/ isSaving (loading state) = true
          \/ pristine state
          \/ hasUnsavedChanges state = false)
  /\ (forall x, autoSaveEffect now state = Some x ->
        x = {| dueAt := now + 1000; closure := state |}).
Proof.
  unfold autoSaveEffect. rewrite hasRealData_isPristine.
  rewrite <- isPristine_false, <- isPristine_spec.
  destruct (isPristine state), (isLoading (loading state)),
    (isSaving (loading state)), (hasUnsavedChanges state); simpl;
    repeat split; intros; try discriminate; try tauto; try congruence;
    intuition discriminate.
Qed.

(** ** Try, catch, finally *)

Lemma try_catch_returned {A : Type} (l : list Event) (a : A) handler :
  try_catch (l, Returned a) handler = (l, Returned a).
Proof. reflexivity. Qed.

Lemma try_catch_thrown {A : Type} (l : list Event) (e : thrown)
    (handler : thrown -> M A) :
  try_catch (l, Thrown e) handler = (l ++ fst (handler e), snd (handler e)).
Proof. simpl. destruct (handler e). reflexivity. Qed.


(** a finalizer that returns leaves the completion of the body alone *)
Lemma try_finally_settled {A : Type} (body : M A) (l : list Event) :
  snd (try_finally body (l, Returned tt)) = snd body.
Proof. destruct body; reflexivity. Qed.






(** ** Loading *)

(** C6: the effect that runs on mount loads only when the plan is
    pristine.  It dispatches load-success when the storage returns a plan,
    only clears the loading flag when it returns none, and dispatches
    load-error when the import or the load rejects; its promise never
    rejects.  The manual [loadUserPlan] makes the same calls and the same
    dispatches, and rejects with the failure. *)
Theorem autoLoad_on_mount (st : Storage) (state : FinancialState) :
  autoLoadEffect st state
    = (if decide (pristine state) then loadData st else ([], Returned tt))
  /\ settled (loadData st) = Returned tt
  /\ dispatched (fst (loadData st))
     = [actions.setLoading true; actions.clearError (Some "generalError");
        match loadOutcome st with
        | Returned (Some loadedPlan) => actions.loadSuccess loadedPlan
        | Returned None => actions.setLoading false
        | Thrown e => actions.loadError (errorMessage e "Failed to load user plan")
        end]
  /\ dispatched (fst (loadUserPlan st)) = dispatched (fst (loadData st))
  /\ settled (loadUserPlan st)
     = match loadOutcome st with
       | Returned _ => Returned tt
       | Thrown e => Thrown e
       end.
Proof.
  split.
  { unfold autoLoadEffect. destruct (decide (pristine state)) as [Hp | Hp].
    - apply isPristine_spec in Hp. rewrite Hp. reflexivity.
    - apply isPristine_false in Hp. rewrite Hp. reflexivity. }
  unfold settled, loadData, loadUserPlan, loadOutcome, await_import, await_load.
  destruct st as [[[] | e] [[p |] | e'] sv]; simpl; repeat split; reflexivity.
Qed.

(** ** Saving by hand *)

(** C3: when the import or the save rejects, [saveUserPlan] dispatches
    save-error with the message (the message of the Error that was
    thrown, or the text "Failed to save user plan" when what was thrown
    is no Error), rejects with the same failure and dispatches nothing that
    clears the saving flag, so [generalError] holds the message and
    [isSaving] is still true.  When the save returns a plan, the plan in
    the state is replaced only if its identifier differs from the current
    one, and [hasUnsavedChanges] is cleared. *)
Theorem saveUserPlan_outcomes (st : Storage) (state : FinancialState) :
  let op := saveUserPlan st state in
  match saveOutcome st (userPlan state) with
  | Thrown e =>
      let message :=
        match e with
        | JsError message => message
        | NonError _ => "Failed to save user plan"
        end in
      settled op = Thrown e
      /\ dispatched (fst op)
         = [actions.setSaving true; actions.clearError (Some "generalError");
            actions.saveError message]
      /\ error (stateAfter state op) !! "generalError" = Some message
      /\ isSaving (loading (stateAfter state op)) = true
      /\ userPlan (stateAfter state op) = userPlan state
      /\ hasUnsavedChanges (stateAfter state op) = hasUnsavedChanges state
  | Returned savedPlan =>
      settled op = Returned tt
      /\ dispatched (fst op)
         = [actions.setSaving true; actions.clearError (Some "generalError")]
           ++ (if decide (id savedPlan = id (userPlan state)) then []
               else [actions.setUserPlan savedPlan])
           ++ [actions.saveSuccess]
      /\ userPlan (stateAfter state op)
         = (if decide (id savedPlan = id (userPlan state)) then userPlan state
            else savedPlan)
      /\ hasUnsavedChanges (stateAfter state op) = false
      /\ error (stateAfter state op) !! "generalError" = None
  end.
Proof.
  unfold saveOutcome, stateAfter, settled, saveUserPlan, await_import, await_save.
  destruct st as [[[] | e] ld sv]; simpl.
  - destruct (sv (userPlan state)) as [savedPlan | e] eqn:Hsv; simpl.
    + destruct (decide (id savedPlan = id (userPlan state))) as [Heq | Hne].
      * apply String.eqb_eq in Heq. rewrite Heq. simpl.
        repeat split; try reflexivity. apply lookup_delete_eq.
      * apply String.eqb_neq in Hne. rewrite Hne. simpl.
        repeat split; try reflexivity. apply lookup_delete_eq.
    + destruct e; repeat split; try reflexivity; apply lookup_insert_eq.
  - destruct e; repeat split; try reflexivity; apply lookup_insert_eq.
Qed.

(** ** The entity operations *)

Lemma removeById_absent (i : string) (seq : list object) :
  Forall (fun x => get x "id" <> VStr i) seq -> removeById i seq = seq.
Proof.
  unfold removeById, strict_eq. induction 1 as [| x seq Hx _ IH]; simpl.
  - reflexivity.
  - rewrite bool_decide_eq_false_2 by assumption. simpl. f_equal. exact IH.
Qed.

Lemma removeById_idempotent (i : string) (seq : list object) :
  removeById i (removeById i seq) = removeById i seq.
Proof.
  apply removeById_absent, List.Forall_forall. intros x Hx.
  apply filter_In in Hx as [_ Hx]. unfold strict_eq in Hx.
  apply negb_true_iff, bool_decide_eq_false in Hx. exact Hx.
Qed.

Lemma withIncome_same (p : UserPlan) : withIncome p (income p) = p.
Proof. destruct p; reflexivity. Qed.
Lemma withExpenses_same (p : UserPlan) : withExpenses p (expenses p) = p.
Proof. destruct p; reflexivity. Qed.
Lemma withGoals_same (p : UserPlan) : withGoals p (goals p) = p.
Proof. destruct p; reflexivity. Qed.

(** the log and the completion of a delete do not depend on anything but
    the id *)
Lemma deleteOf_log (k : EntityKind) (i : string) :
  deleteOf k i
  = ([Dispatch (setLoadingOf k true);
      Dispatch (actions.clearError (Some (errorKeyOf k)));
      Dispatch (deleteActionOf k i);
      Dispatch (setLoadingOf k false)], Returned tt).
Proof. destruct k; reflexivity. Qed.

Lemma addOf_log (k : EntityKind) (nowId : Z) (random36 : string)
    (nowCreated nowUpdated : Z) (input : object) :
  addOf k nowId random36 nowCreated nowUpdated input
  = ([Dispatch (setLoadingOf k true);
      Dispatch (actions.clearError (Some (errorKeyOf k)));
      Dispatch (addActionOf k
        (newEntity (prefixOf k) nowId random36 nowCreated nowUpdated input));
      Dispatch (setLoadingOf k false)], Returned tt).
Proof. destruct k; reflexivity. Qed.

Lemma updateOf_log (k : EntityKind) (state : FinancialState) (now : Z)
    (input : object) :
  updateOf k state now input
  = match findById (sequenceOf k (userPlan state)) input with
    | Some existing =>
        ([Dispatch (setLoadingOf k true);
          Dispatch (actions.clearError (Some (errorKeyOf k)));
          Dispatch (updateActionOf k (updatedEntity existing input now));
          Dispatch (setLoadingOf k false)], Returned tt)
    | None =>
        ([Dispatch (setLoadingOf k true);
          Dispatch (actions.clearError (Some (errorKeyOf k)));
          Raised (JsError (notFoundOf k));
          Dispatch (setErrorOf k (notFoundOf k));
          Raised (JsError (notFoundOf k));
          Dispatch (setLoadingOf k false)], Thrown (JsError (notFoundOf k)))
    end.
Proof.
  destruct k; simpl;
    unfold updateIncome, updateExpense, updateGoal;
    destruct (findById _ input); reflexivity.
Qed.

(** C8: a delete dispatches the removal whatever the state holds (the
    operation does not even read the state), and when no entity of the
    sequence carries the id, the reducer leaves the sequence, indeed the
    whole plan, as it was; deleting twice is deleting once. *)
Theorem delete_absent_is_noop (k : EntityKind) (i : string) (state : FinancialState)
    (Habsent : Forall (fun x => get x "id" <> VStr i) (sequenceOf k (userPlan state))) :
  deleteOf k i
  = ([Dispatch (setLoadingOf k true);
      Dispatch (actions.clearError (Some (errorKeyOf k)));
      Dispatch (deleteActionOf k i);
      Dispatch (setLoadingOf k false)], Returned tt)
  /\ sequenceOf k (userPlan (stateAfter state (deleteOf k i)))
     = sequenceOf k (userPlan state)
  /\ userPlan (stateAfter state (deleteOf k i)) = userPlan state
  /\ userPlan (stateAfter (stateAfter state (deleteOf k i)) (deleteOf k i))
     = userPlan (stateAfter state (deleteOf k i)).
Proof.
  split; [apply deleteOf_log |].
  destruct k; simpl in *; rewrite !removeById_absent by assumption;
    rewrite ?withIncome_same, ?withExpenses_same, ?withGoals_same;
    repeat split; reflexivity.
Qed.

Lemma delete_absent_is_noop_witness :
  Forall (fun x => get x "id" <> VStr "income-0-zzz")
         (sequenceOf IncomeKind (userPlan editedState))
  /\ userPlan (stateAfter editedState (deleteOf IncomeKind "income-0-zzz"))
     = userPlan editedState.
Proof.
  assert (Habsent : Forall (fun x => get x "id" <> VStr "income-0-zzz")
                           (sequenceOf IncomeKind (userPlan editedState))).
  { simpl. repeat constructor. vm_compute. discriminate. }
  split; [exact Habsent |].
  apply (delete_absent_is_noop IncomeKind "income-0-zzz" editedState Habsent).
Defined.

(** a delete is idempotent on every sequence, present id or not *)
Lemma delete_twice (k : EntityKind) (i : string) (state : FinancialState) :
  userPlan (stateAfter (stateAfter state (deleteOf k i)) (deleteOf k i))
  = userPlan (stateAfter state (deleteOf k i)).
Proof.
  destruct k; simpl; unfold withIncome, withExpenses, withGoals; simpl;
    rewrite removeById_idempotent; reflexivity.
Qed.


(** reading the input, when no getter throws *)
Lemma readProperty_copied (input : liveObject) (copied : object) (key : string) :
  readProperties input = Returned copied ->
  readProperty input key = Returned (get copied key).
Proof.
  revert copied. induction input as [| [k p] rest IH]; intros copied H; simpl in *.
  - injection H as <-. reflexivity.
  - destruct (readValue p) as [v | e]; [| discriminate].
    destruct (readProperties rest) as [m | e]; [| discriminate].
    injection H as <-. unfold get.
    destruct (String.eqb_spec k key) as [-> | Hne].
    + rewrite (lookup_union_Some_l _ _ _ v) by apply lookup_singleton_eq.
      reflexivity.
    + rewrite lookup_union_r by (apply lookup_singleton_ne; exact Hne).
      apply (IH m eq_refl).
Qed.

Lemma live_findById_copied (seq : list object) (input : liveObject)
    (copied : object) :
  readProperties input = Returned copied ->
  live.findById seq input = Returned (findById seq copied).
Proof.
  intros H. induction seq as [| x seq IH]; simpl; [reflexivity |].
  rewrite (readProperty_copied input copied "id" H).
  destruct (strict_eq (get x "id") (get copied "id")); [reflexivity | exact IH].
Qed.

(** an input of plain data is copied as it is *)
Lemma readProperties_ofPlain (o : object) : readProperties (ofPlain o) = Returned o.
Proof.
  unfold ofPlain. rewrite <- (list_to_map_to_list o) at 2.
  induction (map_to_list o) as [| [k v] l IH]; simpl; [reflexivity |].
  rewrite IH. rewrite <- insert_union_singleton_l. reflexivity.
Qed.

(** when the input can be read, the operations are those on its copy *)
Lemma live_addOf_copied (k : EntityKind) (nowId : Z) (random36 : string)
    (nowCreated nowUpdated : Z) (input : liveObject) (copied : object) :
  readProperties input = Returned copied ->
  live.addOf k nowId random36 nowCreated nowUpdated input
  = addOf k nowId random36 nowCreated nowUpdated copied.
Proof.
  intros H. destruct k; simpl;
    unfold live.addIncome, live.addExpense, live.addGoal; rewrite H; reflexivity.
Qed.

Lemma live_updateOf_copied (k : EntityKind) (state : FinancialState) (now : Z)
    (input : liveObject) (copied : object) :
  readProperties input = Returned copied ->
  live.updateOf k state now input = updateOf k state now copied.
Proof.
  intros H. rewrite updateOf_log.
  destruct k; simpl;
    unfold live.updateIncome, live.updateExpense, live.updateGoal;
    rewrite (live_findById_copied _ input copied H);
    destruct (findById _ copied); simpl; rewrite ?H; reflexivity.
Qed.

(** C10 (as amended): a delete always returns: nothing is thrown in its
    try block, so its catch block does not run and no set-error action is
    dispatched.  An add returns in the same way for every input whose
    properties can be read: it is then the add of the copy.  When a getter
    of the input throws while the input is copied, the catch block runs:
    the add dispatches the set-error action of its domain (with the
    message of the Error, or the text "Failed to add ..." when what was
    thrown is no Error), rejects with what was thrown and lowers the
    loading flag last. *)
Theorem add_delete_resolve_unless_input_throws (k : EntityKind)
    (nowId : Z) (random36 : string) (nowCreated nowUpdated : Z)
    (input : liveObject) (i : string) :
  let add := live.addOf k nowId random36 nowCreated nowUpdated input in
  let del := deleteOf k i in
  match readProperties input with
  | Returned copied =>
      add = addOf k nowId random36 nowCreated nowUpdated copied
      /\ settled add = Returned tt
      /\ existsb isRaised (fst add) = false
      /\ existsb isSetError (fst add) = false
  | Thrown e =>
      settled add = Thrown e
      /\ fst add
         = [Dispatch (setLoadingOf k true);
            Dispatch (actions.clearError (Some (errorKeyOf k)));
            Raised e;
            Dispatch (setErrorOf k
                        match e with
                        | JsError message => message
                        | NonError _ => addFallbackOf k
                        end);
            Raised e;
            Dispatch (setLoadingOf k false)]
  end
  /\ (settled del = Returned tt
      /\ existsb isRaised (fst del) = false
      /\ existsb isSetError (fst del) = false).
Proof.
  cbv zeta. split.
  - destruct (readProperties input) as [copied | e] eqn:Hread.
    + rewrite (live_addOf_copied k _ _ _ _ input copied Hread), addOf_log.
      destruct k; repeat split; reflexivity.
    + destruct k; simpl;
        unfold live.addIncome, live.addExpense, live.addGoal;
        rewrite Hread; destruct e; split; reflexivity.
  - rewrite deleteOf_log. destruct k; repeat split; reflexivity.
Qed.

(** C10 as stated fails: the input is copied inside the try block, and a
    getter of the input that throws takes the add to its catch block: the
    add rejects and dispatches the set-error action. *)
Lemma add_delete_as_stated_fails :
  ~ add_delete_as_stated IncomeKind 1000 "0.i" 1000 1000 brokenInput
      "income-1000-i".
Proof. intros [[Hsettled _] _]. discriminate Hsettled. Qed.

Example add_with_broken_input :
  live.addIncome 1000 "0.i" 1000 1000 brokenInput
  = ([Dispatch (actions.setLoadingIncome true);
      Dispatch (actions.clearError (Some "incomeError"));
      Raised (JsError "amount is not available");
      Dispatch (actions.setIncomeError "amount is not available");
      Raised (JsError "amount is not available");
      Dispatch (actions.setLoadingIncome false)],
     Thrown (JsError "amount is not available")).
Proof. reflexivity. Qed.

Lemma findById_None (seq : list object) (input : object) :
  findById seq input = None
  <-> Forall (fun x => get x "id" <> get input "id") seq.
Proof.
  unfold findById, strict_eq. induction seq as [| x seq IH]; simpl.
  - split; [constructor | reflexivity].
  - destruct (bool_decide_reflect (get x "id" = get input "id")) as [Heq | Hne].
    + split; [discriminate |]. intros H. inversion H; contradiction.
    + rewrite IH. split; [constructor; assumption |]. intros H. inversion H. assumption.
Qed.

Lemma findById_Some (seq : list object) (input existing : object) :
  findById seq input = Some existing ->
  In existing seq /\ get existing "id" = get input "id".
Proof.
  unfold findById. intros H. apply find_some in H as [Hin Heq].
  split; [exact Hin |]. unfold strict_eq in Heq.
  apply bool_decide_eq_true in Heq. exact Heq.
Qed.

(** C1 (as amended): an update whose id no entity of the matching
    sequence carries rejects with the not-found Error.  The loading and
    the clear-error actions are dispatched before the throw, the set-error
    action and the action that clears the loading flag after it; no update
    action is dispatched.  So the plan and [hasUnsavedChanges] are as
    before, the error category of the domain holds the message and the
    loading flag is false. *)
Theorem update_missing_rejects (k : EntityKind) (state : FinancialState)
    (now : Z) (input : object)
    (Hmissing : findById (sequenceOf k (userPlan state)) input = None) :
  let op := updateOf k state now input in
  settled op = Thrown (JsError (notFoundOf k))
  /\ dispatchedBeforeThrow (fst op)
     = [setLoadingOf k true; actions.clearError (Some (errorKeyOf k))]
  /\ dispatched (fst op)
     = [setLoadingOf k true; actions.clearError (Some (errorKeyOf k));
        setErrorOf k (notFoundOf k); setLoadingOf k false]
  /\ userPlan (stateAfter state op) = userPlan state
  /\ hasUnsavedChanges (stateAfter state op) = hasUnsavedChanges state
  /\ error (stateAfter state op) = <[errorKeyOf k := notFoundOf k]> (error state)
  /\ loadingFlagOf k (loading (stateAfter state op)) = false.
Proof.
  cbv zeta. rewrite updateOf_log, Hmissing.
  destruct k; repeat split; try reflexivity; simpl; apply insert_delete_eq.
Qed.

Lemma update_missing_rejects_witness :
  findById (sequenceOf ExpenseKind (userPlan editedState))
    {[ "id" := VStr "nonexistent-1"; "amount" := VNum 50 ]} = None
  /\ settled (updateOf ExpenseKind editedState 0
       {[ "id" := VStr "nonexistent-1"; "amount" := VNum 50 ]})
     = Thrown (JsError "Expense not found").
Proof.
  split; [reflexivity |].
  apply (update_missing_rejects ExpenseKind editedState 0
           {[ "id" := VStr "nonexistent-1"; "amount" := VNum 50 ]}).
  reflexivity.
Defined.

(** C1 as stated fails: for the update of an expense that is not there,
    two actions are dispatched before the throw and the state ends with
    the error recorded. *)
Lemma update_missing_as_stated_fails :
  findById (sequenceOf ExpenseKind (userPlan editedState))
    {[ "id" := VStr "nonexistent-1"; "amount" := VNum 50 ]} = None
  /\ ~ update_missing_as_stated ExpenseKind editedState 0
         {[ "id" := VStr "nonexistent-1"; "amount" := VNum 50 ]}.
Proof.
  split; [reflexivity |].
  intros (_ & Hbefore & _). vm_compute in Hbefore. discriminate.
Qed.

Example update_missing_changes_state :
  stateAfter editedState (updateOf ExpenseKind editedState 0
     {[ "id" := VStr "nonexistent-1"; "amount" := VNum 50 ]})
  <> editedState.
Proof.
  intros H. apply (f_equal (fun s => error s !! "expenseError")) in H.
  vm_compute in H. discriminate.
Qed.

(** ** Creating *)





(** an id supplied by the caller wins over the generated one *)
Lemma newEntity_id_supplied (prefix : string) (nowId : Z) (random36 : string)
    (nowCreated nowUpdated : Z) (input : object) (v : value) :
  input !! "id" = Some v ->
  get (newEntity prefix nowId random36 nowCreated nowUpdated input) "id" = v.
Proof.
  intros H. unfold get, newEntity, spread.
  rewrite !lookup_insert_ne by discriminate.
  erewrite lookup_union_Some_l by exact H. reflexivity.
Qed.

Lemma newEntity_stamps (prefix : string) (nowId : Z) (random36 : string)
    (nowCreated nowUpdated : Z) (input : object) :
  let e := newEntity prefix nowId random36 nowCreated nowUpdated input in
  get e "createdAt" = VStr (Date.toISOString nowCreated)
  /\ get e "updatedAt" = VStr (Date.toISOString nowUpdated).
Proof.
  unfold get, newEntity. split.
  - rewrite lookup_insert_ne by discriminate. rewrite lookup_insert_eq. reflexivity.
  - rewrite lookup_insert_eq. reflexivity.
Qed.





Example create_short_suffix :
  generateId 1000 "0.i" "income" = "income-1000-i".
Proof. vm_compute. reflexivity. Qed.

Example create_suffix_not_nine :
  ~ exists suffix,
      get (newEntity "income" 1000 "0.i" 1000 1001
             {[ "amount" := VNum 100; "source" := VStr "job" ]}) "id"
      = VStr ("income" +:+ "-" +:+ pretty 1000 +:+ "-" +:+ suffix)
      /\ String.length suffix = 9%nat.
Proof.
  intros (suffix & Hid & Hlen). vm_compute in Hid.
  injection Hid as <-. discriminate.
Qed.

Example create_id_taken :
  findById (income (userPlan editedState))
    (newEntity "income" 1000 "0.i" 1000 1001
       {[ "amount" := VNum 100; "source" := VStr "job" ]})
  = Some salary.
Proof. reflexivity. Qed.

Example create_stamps_differ :
  let e := newEntity "income" 1000 "0.i" 1000 1001
             {[ "amount" := VNum 100; "source" := VStr "job" ]} in
  get e "createdAt" = VStr "1970-01-01T00:00:01.000Z"
  /\ get e "updatedAt" = VStr "1970-01-01T00:00:01.001Z".
Proof. vm_compute. split; reflexivity. Qed.

(** ** Debounce *)

Lemma commits_snoc (cs : list (Z * FinancialState)) (c : Z * FinancialState)
    (tm : Timers) :
  commits (cs ++ [c]) tm = commit (commits cs tm) c.
Proof. unfold commits. rewrite fold_left_app. reflexivity. Qed.

Lemma withinDebounce_snoc (cs : list (Z * FinancialState)) (c : Z * FinancialState) :
  withinDebounce (cs ++ [c]) ->
  withinDebounce cs
  /\ (forall c', last cs = Some c' -> fst c' <= fst c < fst c' + 1000).
Proof.
  induction cs as [| c1 cs IH]; simpl.
  - intros _. split; [exact I | discriminate].
  - destruct cs as [| c2 cs]; simpl in *.
    + intros [H _]. split; [exact I |]. intros c' [= <-]. exact H.
    + intros [H12 Hrest]. destruct (IH Hrest) as [Hw Hlast].
      split; [split; assumption |]. exact Hlast.
Qed.

(** while the commits keep coming less than 1000ms apart, no timer gets to
    run, and the one pending (if any) was set by the last commit *)
Lemma commits_keep_pending (cs : list (Z * FinancialState)) :
  withinDebounce cs ->
  fired (commits cs noTimers) = []
  /\ (forall x, pending (commits cs noTimers) = Some x ->
        exists c, last cs = Some c /\ x = {| dueAt := fst c + 1000; closure := snd c |}).
Proof.
  induction cs as [| c cs IH] using rev_ind; intros Hw.
  - split; [reflexivity | discriminate].
  - apply withinDebounce_snoc in Hw as [Hw Hlast].
    destruct (IH Hw) as [Hfired Hpending]. rewrite commits_snoc.
    split.
    + simpl. unfold elapse.
      destruct (pending (commits cs noTimers)) as [x |] eqn:Hp; [| exact Hfired].
      destruct (Hpending x eq_refl) as (c' & Hc' & ->). simpl.
      specialize (Hlast c' Hc').
      destruct (Z.leb_spec (fst c' + 1000) (fst c)); [lia | exact Hfired].
    + intros x Hx. exists c. rewrite last_snoc. split; [reflexivity |].
      simpl in Hx.
      apply autoSaveEffect_Some. exact Hx.
Qed.

(** the callback of a timer calls the storage save once, with the plan it
    closes over, provided the storage module loads *)
Lemma saveData_calls (st : Storage) (state : FinancialState) :
  filter (fun e => isStorageSave e = true) (fst (saveData st state))
  = match importStorage st with
    | Returned _ => [StorageSave (userPlan state)]
    | Thrown _ => []
    end.
Proof.
  unfold saveData, await_import, await_save.
  destruct (importStorage st) as [[] | e]; simpl; [| reflexivity].
  destruct (saveToStorage st (userPlan state)) as [savedPlan | e]; simpl;
    [| reflexivity].
  destruct (negb _); reflexivity.
Qed.

(** the callback never rejects: a failure is logged and dropped *)
Lemma saveData_settled (st : Storage) (state : FinancialState) :
  settled (saveData st state) = Returned tt.
Proof.
  unfold settled, saveData, await_import, await_save.
  destruct (importStorage st) as [[] | e]; simpl; [| reflexivity].
  destruct (saveToStorage st (userPlan state)) as [savedPlan | e]; simpl;
    [| reflexivity].
  destruct (negb _); reflexivity.
Qed.

(** C5 (as amended): in a run of commits less than 1000ms apart every
    commit clears the timer of the one before, so nothing runs in between
    and only the timer of the last commit can run.  When the state of the
    last commit is eligible, that timer runs once, 1000ms after the
    commit, and its callback calls the storage save once with the plan of
    that commit (if the storage module loads); when it is not, no timer
    is set and nothing is saved. *)
Theorem debounce_single_save (st : Storage) (cs : list (Z * FinancialState))
    (t : Z) (state : FinancialState)
    (Hwithin : withinDebounce (cs ++ [(t, state)])) :
  let ran := settle (commits (cs ++ [(t, state)]) noTimers) in
  fired (commits (cs ++ [(t, state)]) noTimers) = []
  /\ ran = match autoSaveEffect t state with
           | Some _ => [{| dueAt := t + 1000; closure := state |}]
           | None => []
           end
  /\ saveCalls st ran
     = match autoSaveEffect t state, importStorage st with
       | Some _, Returned _ => [StorageSave (userPlan state)]
       | _, _ => []
       end.
Proof.
  cbv zeta.
  destruct (commits_keep_pending _ Hwithin) as [Hfired _].
  assert (Hran : settle (commits (cs ++ [(t, state)]) noTimers)
                 = match autoSaveEffect t state with
                   | Some _ => [{| dueAt := t + 1000; closure := state |}]
                   | None => []
                   end).
  { unfold settle. rewrite Hfired. rewrite commits_snoc. simpl.
    destruct (autoSaveEffect t state) as [x |] eqn:Hx; [| reflexivity].
    apply autoSaveEffect_Some in Hx. subst x. reflexivity. }
  split; [exact Hfired |]. split; [exact Hran |].
  rewrite Hran. unfold saveCalls.
  destruct (autoSaveEffect t state); [| destruct (importStorage st); reflexivity].
  simpl. rewrite app_nil_r. apply saveData_calls.
Qed.

Lemma debounce_single_save_witness :
  withinDebounce ([(0, editedState); (400, editedState)] ++ [(900, editedState)])
  /\ saveCalls okStorage
       (settle (commits ([(0, editedState); (400, editedState)]
                           ++ [(900, editedState)]) noTimers))
     = [StorageSave (userPlan editedState)].
Proof.
  split; [simpl; lia |].
  apply (debounce_single_save okStorage [(0, editedState); (400, editedState)]
           900 editedState).
  simpl. lia.
Defined.

(** C5 as stated fails: a mutation that is committed while a save is in
    flight clears the pending timer and sets none, so no save is called. *)
Lemma debounce_as_stated_fails :
  ~ debounce_as_stated okStorage [(0, editedState); (400, editedWhileSaving)].
Proof.
  intros H. destruct H as (c & Hlast & Hcalls).
  - simpl. lia.
  - repeat constructor.
  - vm_compute in Hcalls. discriminate.
Qed.

(** ** Updating *)

Lemma updatedEntity_stamp (existing input : object) (now : Z) :
  get (updatedEntity existing input now) "updatedAt"
  = VStr (Date.toISOString now).
Proof. unfold get, updatedEntity. rewrite lookup_insert_eq. reflexivity. Qed.

Lemma updatedEntity_kept (existing input : object) (now : Z) (key : string) :
  key <> "updatedAt" -> input !! key = None ->
  updatedEntity existing input now !! key = existing !! key.
Proof.
  intros Hkey Hnone. unfold updatedEntity, spread.
  rewrite lookup_insert_ne by congruence. apply lookup_union_r, Hnone.
Qed.

Lemma updatedEntity_supplied (existing input : object) (now : Z) (key : string) :
  key <> "updatedAt" -> is_Some (input !! key) ->
  updatedEntity existing input now !! key = input !! key.
Proof.
  intros Hkey [v Hv]. unfold updatedEntity, spread.
  rewrite lookup_insert_ne by congruence. rewrite Hv.
  apply lookup_union_Some_l, Hv.
Qed.

(** C7 (as amended): an update of an entity that is there returns after
    dispatching the update action with the merged entity.  The merge
    stamps [updatedAt] with the ISO-8601 text of the clock reading and
    changes nothing else by itself: a field the input does not supply
    keeps the value of the existing entity, a field it supplies takes the
    supplied value, and the identifier stays.  The new [updatedAt] is not
    before a prior stamp of a four-digit year exactly when the clock reads
    no less than the time of that stamp. *)
Theorem update_merges (k : EntityKind) (state : FinancialState) (now : Z)
    (input existing : object)
    (Hfound : findById (sequenceOf k (userPlan state)) input = Some existing) :
  let e := updatedEntity existing input now in
  updateOf k state now input
  = ([Dispatch (setLoadingOf k true);
      Dispatch (actions.clearError (Some (errorKeyOf k)));
      Dispatch (updateActionOf k e);
      Dispatch (setLoadingOf k false)], Returned tt)
  /\ get e "updatedAt" = VStr (Date.toISOString now)
  /\ (forall key, key <> "updatedAt" -> input !! key = None ->
        e !! key = existing !! key)
  /\ (forall key, key <> "updatedAt" -> is_Some (input !! key) ->
        e !! key = input !! key)
  /\ get e "id" = get existing "id"
  /\ (forall prior,
        get existing "updatedAt" = VStr (Date.toISOString prior) ->
        DateOrder.fourDigitYear prior -> DateOrder.fourDigitYear now ->
        String.leb (Date.toISOString prior) (Date.toISOString now)
        = (prior <=? now)).
Proof.
  cbv zeta. split; [rewrite updateOf_log, Hfound; reflexivity |].
  split; [apply updatedEntity_stamp |].
  split; [intros key; apply updatedEntity_kept |].
  split; [intros key; apply updatedEntity_supplied |].
  split.
  - apply findById_Some in Hfound as [_ Hid]. unfold get in *.
    destruct (input !! "id") as [v |] eqn:Hin.
    + rewrite updatedEntity_supplied by (try discriminate; rewrite Hin; eauto).
      rewrite Hin. symmetry. exact Hid.
    + rewrite updatedEntity_kept by (try discriminate; exact Hin). reflexivity.
  - intros prior _. apply DateFacts.toISOString_leb.
Qed.

Lemma update_merges_witness :
  findById (sequenceOf IncomeKind (userPlan editedState))
    {[ "id" := VStr "income-1000-i"; "amount" := VNum 120 ]} = Some salary
  /\ get (updatedEntity salary
            {[ "id" := VStr "income-1000-i"; "amount" := VNum 120 ]} 3000)
         "updatedAt"
     = VStr "1970-01-01T00:00:03.000Z".
Proof.
  split; [reflexivity |].
  refine (eq_trans
    (proj1 (proj2
      (update_merges IncomeKind editedState 3000
         {[ "id" := VStr "income-1000-i"; "amount" := VNum 120 ]} salary _))) _).
  - reflexivity.
  - vm_compute. reflexivity.
Defined.

(** C7 as stated fails: the entity carries a stamp of 00:00:02 and the
    clock reads 00:00:01 at the update; the new stamp is before the prior
    one. *)
Lemma update_as_stated_fails :
  findById (sequenceOf IncomeKind (userPlan editedState))
    {[ "id" := VStr "income-1000-i"; "amount" := VNum 120 ]} = Some salary
  /\ ~ update_as_stated salary
         {[ "id" := VStr "income-1000-i"; "amount" := VNum 120 ]} 1000.
Proof.
  split; [reflexivity |].
  intros [_ Horder].
  specialize (Horder "1970-01-01T00:00:02.000Z" "1970-01-01T00:00:01.000Z").
  assert (H : String.leb "1970-01-01T00:00:02.000Z" "1970-01-01T00:00:01.000Z"
              = true).
  { apply Horder; vm_compute; reflexivity. }
  vm_compute in H. discriminate.
Qed.

(** ** Scenarios *)

(** a fresh provider mounts and the storage holds no plan: the state stays
    pristine, nothing is loading and no save is scheduled *)
Example fresh_mount_nothing_stored :
  let state := stateAfter freshState (autoLoadEffect okStorage freshState) in
  fst (autoLoadEffect okStorage freshState)
  = [Dispatch (actions.setLoading true);
     Dispatch (actions.clearError (Some "generalError"));
     ImportStorage; StorageLoad;
     Dispatch (actions.setLoading false)]
  /\ userPlan state = freshPlan
  /\ isLoading (loading state) = false
  /\ autoSaveEffect 0 state = None.
Proof. repeat split; reflexivity. Qed.

(** an income is added to a fresh state *)
Example add_first_income :
  let state :=
    stateAfter freshState
      (addIncome 1000 "0.4fzyo82mvyr" 1000 1000
         {[ "amount" := VNum 100; "source" := VStr "job" ]}) in
  (exists e, income (userPlan state) = [e]
     /\ get e "amount" = VNum 100 /\ get e "source" = VStr "job"
     /\ get e "id" = VStr "income-1000-4fzyo82mv")
  /\ error state !! "incomeError" = None
  /\ isLoadingIncome (loading state) = false
  /\ hasUnsavedChanges state = true.
Proof.
  cbv zeta. split; [| repeat split; reflexivity].
  eexists. split; [reflexivity |]. repeat split; vm_compute; reflexivity.
Qed.

(** a manual save that the storage rejects *)
Example save_rejected :
  let op := saveUserPlan brokenStorage editedState in
  settled op = Thrown (JsError "quota exceeded")
  /\ error (stateAfter editedState op) !! "generalError" = Some "quota exceeded"
  /\ isSaving (loading (stateAfter editedState op)) = true.
Proof. repeat split; reflexivity. Qed.

(** the first save of a default plan adopts the plan the storage returns *)
Example first_save_adopts_plan :
  let op := saveUserPlan okStorage editedState in
  settled op = Returned tt
  /\ id (userPlan (stateAfter editedState op)) = "plan-1"
  /\ hasUnsavedChanges (stateAfter editedState op) = false.
Proof. repeat split; reflexivity. Qed.

(** * Further properties of the provider *)

(** ** Identifiers *)

Lemma pretty_N_char_no_hyphen (x : N) :
  Ascii.eqb (pretty_N_char x) "-" = false.
Proof.
  unfold pretty_N_char.
  repeat match goal with
         | |- context [match ?y with _ => _ end] => destruct y
         end; reflexivity.
Qed.

Lemma pretty_N_go_no_hyphen (x : N) (s : string) :
  noHyphen s = true -> noHyphen (pretty_N_go x s) = true.
Proof.
  revert s. induction (N.lt_wf_0 x) as [x _ IH]; intros s Hs.
  destruct (N.eq_dec x 0%N) as [-> | Hx].
  - rewrite pretty_N_go_0. exact Hs.
  - rewrite pretty_N_go_step by lia. apply IH.
    + apply N.div_lt; lia.
    + simpl. rewrite pretty_N_char_no_hyphen. exact Hs.
Qed.

(** the decimal text of a time after the epoch has no hyphen *)
Lemma pretty_no_hyphen (now : Z) : 0 <= now -> noHyphen (pretty now) = true.
Proof.
  intros H. destruct now as [| p | p]; [reflexivity | | lia].
  unfold pretty, pretty_Z, pretty, pretty_positive, pretty, pretty_N.
  destruct (decide (N.pos p = 0%N)); [reflexivity |].
  apply pretty_N_go_no_hyphen. reflexivity.
Qed.

(** texts without a hyphen that are followed by one end where it stands *)
Lemma split_at_hyphen (a a' r r' : string) :
  noHyphen a = true -> noHyphen a' = true ->
  a +:+ String "-" r = a' +:+ String "-" r' -> a = a' /\ r = r'.
Proof.
  revert a'. induction a as [| c a IH]; intros [| c' a'] Ha Ha' Heq; simpl in *.
  - injection Heq as ->. split; reflexivity.
  - injection Heq as <- _. discriminate.
  - injection Heq as -> _. discriminate.
  - injection Heq as -> Heq.
    apply andb_true_iff in Ha as [_ Ha]. apply andb_true_iff in Ha' as [_ Ha'].
    destruct (IH a' Ha Ha' Heq) as [-> ->]. split; reflexivity.
Qed.

(** X1: an identifier tells its parts.  For prefixes without a hyphen and
    clock readings after the epoch, two generated identifiers are equal
    only if the prefix, the millisecond and the random characters that
    went into them are: identifiers of different kinds, or made at
    different milliseconds, are different. *)
Theorem generateId_inj (prefix prefix' : string) (now now' : Z)
    (random36 random36' : string)
    (Hprefix : noHyphen prefix = true) (Hprefix' : noHyphen prefix' = true)
    (Hnow : 0 <= now) (Hnow' : 0 <= now')
    (Hsame : generateId now random36 prefix = generateId now' random36' prefix') :
  prefix = prefix' /\ now = now'
  /\ substring 2 9 random36 = substring 2 9 random36'.
Proof.
  unfold generateId in Hsame.
  apply split_at_hyphen in Hsame as [Hp Hrest]; [| assumption ..].
  apply split_at_hyphen in Hrest as [Hn Hs];
    [| apply pretty_no_hyphen; assumption ..].
  split; [exact Hp |]. split; [| exact Hs].
  apply (inj pretty). exact Hn.
Qed.

Lemma generateId_inj_witness :
  generateId 1000 "0.abcdefghij" "income" = generateId 1000 "0.abcdefghik" "income"
  /\ substring 2 9 "0.abcdefghij" = substring 2 9 "0.abcdefghik".
Proof.
  assert (Hsame : generateId 1000 "0.abcdefghij" "income"
                  = generateId 1000 "0.abcdefghik" "income")
    by (vm_compute; reflexivity).
  split; [exact Hsame |].
  apply (generateId_inj "income" "income" 1000 1000 "0.abcdefghij" "0.abcdefghik"
           eq_refl eq_refl ltac:(lia) ltac:(lia) Hsame).
Defined.

(** ** What a created entity holds *)

Lemma newEntity_dom (prefix : string) (nowId : Z) (random36 : string)
    (nowCreated nowUpdated : Z) (input : object) :
  dom (newEntity prefix nowId random36 nowCreated nowUpdated input)
  = dom input ∪ {[ "id"; "createdAt"; "updatedAt" ]}.
Proof.
  unfold newEntity, spread.
  rewrite !dom_insert_L, dom_union_L, dom_singleton_L.
  apply set_eq. intros key.
  rewrite !elem_of_union, !elem_of_singleton. tauto.
Qed.

(** X2: the entity an add operation dispatches has the fields of the
    input and [id], [createdAt] and [updatedAt], no more and no less.
    The two stamps are those of the clock even when the input supplies
    them; an [id] that the input supplies replaces the generated one. *)
Theorem created_entity_fields (k : EntityKind) (nowId : Z) (random36 : string)
    (nowCreated nowUpdated : Z) (input : object) :
  let e := newEntity (prefixOf k) nowId random36 nowCreated nowUpdated input in
  dispatched (fst (addOf k nowId random36 nowCreated nowUpdated input))
  = [setLoadingOf k true; actions.clearError (Some (errorKeyOf k));
     addActionOf k e; setLoadingOf k false]
  /\ dom e = dom input ∪ {[ "id"; "createdAt"; "updatedAt" ]}
  /\ e !! "id" = Some (match input !! "id" with
                       | Some supplied => supplied
                       | None => VStr (generateId nowId random36 (prefixOf k))
                       end)
  /\ e !! "createdAt" = Some (VStr (Date.toISOString nowCreated))
  /\ e !! "updatedAt" = Some (VStr (Date.toISOString nowUpdated)).
Proof.
  cbv zeta. split; [rewrite addOf_log; reflexivity |].
  split; [apply newEntity_dom |].
  unfold newEntity, spread, isoNow. split; [| split].
  - rewrite !lookup_insert_ne by discriminate.
    destruct (input !! "id") as [supplied |] eqn:Hid.
    + apply lookup_union_Some_l, Hid.
    + rewrite lookup_union_r by exact Hid. apply lookup_singleton_eq.
  - rewrite lookup_insert_ne by discriminate. apply lookup_insert_eq.
  - apply lookup_insert_eq.
Qed.

(** ** How updates compose *)

Lemma updatedEntity_lookup (existing input : object) (now : Z) (key : string) :
  updatedEntity existing input now !! key
  = if decide (key = "updatedAt") then Some (VStr (Date.toISOString now))
    else match input !! key with
         | Some v => Some v
         | None => existing !! key
         end.
Proof.
  unfold updatedEntity, spread, isoNow.
  destruct (decide (key = "updatedAt")) as [-> | Hne].
  - apply lookup_insert_eq.
  - rewrite lookup_insert_ne by congruence. rewrite lookup_union.
    destruct (input !! key), (existing !! key); reflexivity.
Qed.

(** X3: two merges in a row are one merge.  Merging the input of a first
    update and then the input of a second one into an entity gives the
    entity that one update with both inputs (the second over the first)
    gives at the time of the second; so repeating an update changes
    nothing but the stamp, and merging an empty input touches nothing but
    [updatedAt]. *)
Theorem updates_compose (existing input1 input2 : object) (now1 now2 : Z) :
  updatedEntity (updatedEntity existing input1 now1) input2 now2
  = updatedEntity existing (spread input1 input2) now2
  /\ updatedEntity (updatedEntity existing input1 now1) input1 now2
     = updatedEntity existing input1 now2
  /\ updatedEntity existing ∅ now1
     = <["updatedAt" := VStr (Date.toISOString now1)]> existing.
Proof.
  repeat split; apply map_eq; intros key.
  - rewrite !updatedEntity_lookup. unfold spread. rewrite lookup_union.
    destruct (decide (key = "updatedAt")); [reflexivity |].
    destruct (input2 !! key), (input1 !! key); reflexivity.
  - rewrite !updatedEntity_lookup.
    destruct (decide (key = "updatedAt")); [reflexivity |].
    destruct (input1 !! key); reflexivity.
  - rewrite updatedEntity_lookup, lookup_empty.
    destruct (decide (key = "updatedAt")) as [-> | Hne].
    + symmetry. apply lookup_insert_eq.
    + rewrite lookup_insert_ne by congruence. reflexivity.
Qed.

(** ** Stamps *)

(** X4: with a clock that does not go back, [createdAt] is never after
    [updatedAt]: it is so in a created entity, and an update that does
    not supply [createdAt] keeps the creation stamp and moves
    [updatedAt] forward (as texts, in four-digit years). *)
Theorem stamps_stay_ordered (prefix : string) (nowId : Z) (random36 : string)
    (nowCreated nowUpdated now : Z) (input input' : object)
    (Hcreated : DateOrder.fourDigitYear nowCreated)
    (Hnow : DateOrder.fourDigitYear now)
    (Hclock : nowCreated <= nowUpdated <= now)
    (Hkeep : input' !! "createdAt" = None) :
  let e := newEntity prefix nowId random36 nowCreated nowUpdated input in
  let e' := updatedEntity e input' now in
  exists created updated updated',
    get e "createdAt" = VStr created /\ get e "updatedAt" = VStr updated
    /\ get e' "createdAt" = VStr created /\ get e' "updatedAt" = VStr updated'
    /\ String.leb created updated = true
    /\ String.leb updated updated' = true
    /\ String.leb created updated' = true.
Proof.
  cbv zeta.
  assert (Hupdated : DateOrder.fourDigitYear nowUpdated)
    by (unfold DateOrder.fourDigitYear in *; lia).
  destruct (newEntity_stamps prefix nowId random36 nowCreated nowUpdated input)
    as [Hc Hu].
  exists (Date.toISOString nowCreated), (Date.toISOString nowUpdated),
    (Date.toISOString now).
  split; [exact Hc |]. split; [exact Hu |].
  split.
  { unfold get in *. rewrite updatedEntity_kept by (try discriminate; exact Hkeep).
    exact Hc. }
  split; [apply updatedEntity_stamp |].
  rewrite !DateFacts.toISOString_leb by assumption.
  repeat split; apply Z.leb_le; lia.
Qed.

Lemma stamps_stay_ordered_witness :
  DateOrder.fourDigitYear 1000 /\ DateOrder.fourDigitYear 5000
  /\ exists created updated updated',
       get (newEntity "goal" 1000 "0.i" 1000 1001 ∅) "createdAt" = VStr created
       /\ get (newEntity "goal" 1000 "0.i" 1000 1001 ∅) "updatedAt" = VStr updated
       /\ get (updatedEntity (newEntity "goal" 1000 "0.i" 1000 1001 ∅)
                 {[ "name" := VStr "car" ]} 5000) "createdAt" = VStr created
       /\ get (updatedEntity (newEntity "goal" 1000 "0.i" 1000 1001 ∅)
                 {[ "name" := VStr "car" ]} 5000) "updatedAt" = VStr updated'
       /\ String.leb created updated = true
       /\ String.leb updated updated' = true
       /\ String.leb created updated' = true.
Proof.
  assert (H1 : DateOrder.fourDigitYear 1000) by (unfold DateOrder.fourDigitYear; lia).
  assert (H2 : DateOrder.fourDigitYear 5000) by (unfold DateOrder.fourDigitYear; lia).
  split; [exact H1 |]. split; [exact H2 |].
  apply (stamps_stay_ordered "goal" 1000 "0.i" 1000 1001 5000 ∅
           {[ "name" := VStr "car" ]} H1 H2); [lia | reflexivity].
Defined.

(** ** When an update resolves *)

Lemma findById_first (pre post : list object) (x input : object) :
  Forall (fun y => get y "id" <> get input "id") pre ->
  get x "id" = get input "id" ->
  findById (pre ++ x :: post) input = Some x.
Proof.
  intros Hpre Hx. unfold findById, strict_eq.
  induction Hpre as [| y pre Hy _ IH]; simpl.
  - rewrite bool_decide_eq_true_2 by exact Hx. reflexivity.
  - rewrite bool_decide_eq_false_2 by exact Hy. exact IH.
Qed.

(** X5: what an update does is decided by reading its input and by the
    lookup.  When the input can be read, the update is the update of the
    copy: it resolves exactly when some entity of the sequence it closes
    over carries the id of the input, and rejects with the not-found
    Error exactly when none does.  When a getter of the input throws, the
    update never resolves: it rejects with the failure of the read of the
    id, with the not-found Error when the lookup found no entity, or with
    the failure of the copy. *)
Theorem update_resolves_iff (k : EntityKind) (state : FinancialState) (now : Z)
    (input : liveObject) :
  let op := live.updateOf k state now input in
  let seq := sequenceOf k (userPlan state) in
  match readProperties input with
  | Returned copied =>
      op = updateOf k state now copied
      /\ (settled op = Returned tt
          <-> List.Exists (fun x => get x "id" = get copied "id") seq)
      /\ (settled op = Thrown (JsError (notFoundOf k))
          <-> List.Forall (fun x => get x "id" <> get copied "id") seq)
      /\ (settled op = Returned tt <-> existsb isRaised (fst op) = false)
  | Thrown e =>
      settled op
      = match live.findById seq input with
        | Thrown e' => Thrown e'
        | Returned None => Thrown (JsError (notFoundOf k))
        | Returned (Some _) => Thrown e
        end
  end.
Proof.
  cbv zeta. destruct (readProperties input) as [copied | e] eqn:Hread.
  - rewrite (live_updateOf_copied k state now input copied Hread).
    split; [reflexivity |]. rewrite updateOf_log.
    destruct (findById (sequenceOf k (userPlan state)) copied)
      as [existing |] eqn:Hf.
    + apply findById_Some in Hf as [Hin Hid].
      assert (Hex : List.Exists (fun x => get x "id" = get copied "id")
                      (sequenceOf k (userPlan state)))
        by (apply List.Exists_exists; eauto).
      repeat split; intros H; try reflexivity; try exact Hex; try discriminate.
      exfalso. rewrite List.Forall_forall in H. exact (H _ Hin Hid).
    + apply findById_None in Hf.
      repeat split; intros H; try reflexivity; try exact Hf; try discriminate.
      exfalso. apply List.Exists_exists in H as (x & Hin & Hid).
      rewrite List.Forall_forall in Hf. exact (Hf _ Hin Hid).
  - destruct k; simpl;
      unfold live.updateIncome, live.updateExpense, live.updateGoal;
      destruct (live.findById _ input) as [[existing |] | e']; simpl;
      rewrite ?Hread; reflexivity.
Qed.

(** X6: when several entities carry the id, the update merges into the
    first of them: the entities before it do not match, and those after
    it are not looked at, whatever they hold. *)
Theorem update_takes_first_match (k : EntityKind) (state : FinancialState)
    (now : Z) (input x : object) (pre post : list object)
    (Hseq : sequenceOf k (userPlan state) = pre ++ x :: post)
    (Hpre : Forall (fun y => get y "id" <> get input "id") pre)
    (Hx : get x "id" = get input "id") :
  updateOf k state now input
  = ([Dispatch (setLoadingOf k true);
      Dispatch (actions.clearError (Some (errorKeyOf k)));
      Dispatch (updateActionOf k (updatedEntity x input now));
      Dispatch (setLoadingOf k false)], Returned tt).
Proof.
  rewrite updateOf_log, Hseq, (findById_first pre post x input Hpre Hx).
  reflexivity.
Qed.

Lemma update_takes_first_match_witness :
  settled (updateOf ExpenseKind
             {| userPlan := withExpenses freshPlan
                              [salary; rent; <["amount" := VNum 1]> rent];
                loading := idle; error := ∅; hasUnsavedChanges := false |}
             0 {[ "id" := VStr "expense-7-abc" ]})
  = Returned tt.
Proof.
  rewrite (update_takes_first_match ExpenseKind _ 0
             {[ "id" := VStr "expense-7-abc" ]} rent [salary]
             [<["amount" := VNum 1]> rent]).
  - reflexivity.
  - reflexivity.
  - repeat constructor. vm_compute. discriminate.
  - reflexivity.
Defined.

(** ** What the callbacks and the effect read *)

(** X7: the memoised callbacks read no more of the state than their
    dependency lists name.  An update gives the same result in two states
    with the same sequence of its kind, whatever else differs, and
    [saveUserPlan] gives the same result in two states with the same
    plan. *)
Theorem callbacks_read_their_dependencies (k : EntityKind) (st : Storage)
    (s1 s2 : FinancialState) (now : Z) (input : object) :
  (sequenceOf k (userPlan s1) = sequenceOf k (userPlan s2) ->
   updateOf k s1 now input = updateOf k s2 now input)
  /\ (userPlan s1 = userPlan s2 -> saveUserPlan st s1 = saveUserPlan st s2).
Proof.
  split.
  - intros Hseq. rewrite !updateOf_log, Hseq. reflexivity.
  - intros Hplan. unfold saveUserPlan. rewrite Hplan. reflexivity.
Qed.

(** X8: the auto-save effect reads no more of the state than its
    dependency list names: in two states with the same plan, the same
    [hasUnsavedChanges], [isLoading] and [isSaving] it takes the same
    decision, and the callbacks it would schedule do the same. *)
Theorem autoSave_reads_its_dependencies (st : Storage) (now : Z)
    (s1 s2 : FinancialState)
    (Hplan : userPlan s1 = userPlan s2)
    (Hunsaved : hasUnsavedChanges s1 = hasUnsavedChanges s2)
    (Hloading : isLoading (loading s1) = isLoading (loading s2))
    (Hsaving : isSaving (loading s1) = isSaving (loading s2)) :
  (autoSaveEffect now s1 = None <-> autoSaveEffect now s2 = None)
  /\ option_map dueAt (autoSaveEffect now s1) = option_map dueAt (autoSaveEffect now s2)
  /\ saveData st s1 = saveData st s2.
Proof.
  unfold autoSaveEffect, hasRealData, saveData.
  rewrite Hplan, Hunsaved, Hloading, Hsaving.
  destruct (_ && _); repeat split; intros; try reflexivity; try discriminate.
Qed.

Lemma autoSave_reads_its_dependencies_witness :
  let other :=
    {| userPlan := userPlan editedState; loading := loading editedState;
       error := {[ "goalError" := "Goal not found" ]};
       hasUnsavedChanges := true |} in
  saveData okStorage editedState = saveData okStorage other.
Proof.
  cbv zeta.
  apply (autoSave_reads_its_dependencies okStorage 0 editedState
           {| userPlan := userPlan editedState; loading := loading editedState;
              error := {[ "goalError" := "Goal not found" ]};
              hasUnsavedChanges := true |}); reflexivity.
Defined.

(** ** Who talks to the storage module *)


(** X10: every operation that uses the storage module imports it first,
    and then makes one call at most: the manual save and the auto-save
    callback save the plan they close over and never load, the manual
    load and the load on mount load and never save; when the import
    rejects, no call is made. *)
Theorem storage_calls (st : Storage) (state : FinancialState) :
  let saves :=
    ImportStorage :: match importStorage st with
                     | Returned _ => [StorageSave (userPlan state)]
                     | Thrown _ => []
                     end in
  let loads :=
    ImportStorage :: match importStorage st with
                     | Returned _ => [StorageLoad]
                     | Thrown _ => []
                     end in
  storageCalls (fst (saveUserPlan st state)) = saves
  /\ storageCalls (fst (saveData st state)) = saves
  /\ storageCalls (fst (loadUserPlan st)) = loads
  /\ storageCalls (fst (loadData st)) = loads.
Proof.
  cbv zeta.
  unfold saveUserPlan, saveData, loadUserPlan, loadData,
    await_import, await_save, await_load.
  destruct st as [[[] | e] ld sv]; simpl; [| repeat split; reflexivity].
  destruct (sv (userPlan state)) as [savedPlan | e];
    destruct ld as [[loadedPlan |] | e']; simpl;
    try destruct (negb _); repeat split; reflexivity.
Qed.

(** ** The auto-save callback *)

(** X11: the callback of the auto-save timer never rejects.  When the
    import or the save fails it dispatches nothing, neither an error nor a
    flag, and writes the failure to the console once; when the save
    returns a plan it dispatches the replacement of the plan only if the
    identifier differs, then save-success, and writes nothing. *)
Theorem autoSave_callback_outcomes (st : Storage) (state : FinancialState) :
  let op := saveData st state in
  settled op = Returned tt
  /\ match saveOutcome st (userPlan state) with
     | Thrown e =>
         dispatched (fst op) = []
         /\ List.filter isConsoleError (fst op)
            = [ConsoleError "Auto-save failed:" e]
     | Returned savedPlan =>
         dispatched (fst op)
         = (if decide (id savedPlan = id (userPlan state)) then []
            else [actions.setUserPlan savedPlan]) ++ [actions.saveSuccess]
         /\ List.filter isConsoleError (fst op) = []
         /\ existsb isRaised (fst op) = false
     end.
Proof.
  cbv zeta. unfold saveOutcome, settled, saveData, await_import, await_save.
  destruct st as [[[] | e] ld sv]; simpl; [| repeat split; reflexivity].
  destruct (sv (userPlan state)) as [savedPlan | e]; simpl;
    [| repeat split; reflexivity].
  destruct (decide (id savedPlan = id (userPlan state))) as [Heq | Hne].
  - apply String.eqb_eq in Heq. rewrite Heq. repeat split; reflexivity.
  - apply String.eqb_neq in Hne. rewrite Hne. repeat split; reflexivity.
Qed.

(** ** Timers, for any run of commits *)

Lemma commits_timers (cs : list (Z * FinancialState)) :
  (forall x, In x (fired (commits cs noTimers)) ->
     exists pre c c' post,
       cs = pre ++ c :: c' :: post
       /\ autoSaveEffect (fst c) (snd c) = Some x
       /\ dueAt x <= fst c')
  /\ pending (commits cs noTimers)
     = match last cs with
       | Some c => autoSaveEffect (fst c) (snd c)
       | None => None
       end.
Proof.
  induction cs as [| c cs [IHf IHp]] using rev_ind.
  - split; [intros x [] | reflexivity].
  - rewrite commits_snoc, last_snoc. split; [| reflexivity].
    assert (Hold : forall x, In x (fired (commits cs noTimers)) ->
              exists pre c1 c2 post,
                cs ++ [c] = pre ++ c1 :: c2 :: post
                /\ autoSaveEffect (fst c1) (snd c1) = Some x
                /\ dueAt x <= fst c2).
    { intros x Hx. destruct (IHf x Hx) as (pre & c1 & c2 & post & -> & He & Hd).
      exists pre, c1, c2, (post ++ [c]).
      rewrite <- !app_assoc. simpl. auto. }
    intros x. simpl. unfold elapse.
    destruct (pending (commits cs noTimers)) as [x0 |] eqn:Hp; [| apply Hold].
    destruct (Z.leb_spec (dueAt x0) (fst c)) as [Hdue | _]; [| apply Hold].
    simpl. rewrite in_app_iff. intros [Hx | [<- | []]]; [apply Hold, Hx |].
    destruct (last cs) as [cl |] eqn:Hl; [| discriminate].
    apply last_Some in Hl as [pre ->].
    exists pre, cl, c, []. rewrite <- app_assoc. simpl. rewrite IHp in Hp. auto.
Qed.



Lemma spacedOut_snoc (cs : list (Z * FinancialState)) (c : Z * FinancialState) :
  spacedOut (cs ++ [c]) ->
  spacedOut cs /\ (forall c', last cs = Some c' -> fst c' + 1000 < fst c).
Proof.
  induction cs as [| c1 cs IH]; simpl.
  - intros _. split; [exact I | discriminate].
  - destruct cs as [| c2 cs]; simpl in *.
    + intros [H _]. split; [exact I |]. intros c' [= <-]. exact H.
    + intros [H12 Hrest]. destruct (IH Hrest) as [Hw Hlast].
      split; [split; assumption |]. exact Hlast.
Qed.

Lemma spaced_commits_timers (cs : list (Z * FinancialState)) :
  spacedOut cs ->
  fired (commits cs noTimers)
  = omap (fun c => autoSaveEffect (fst c) (snd c)) (removelast cs).
Proof.
  induction cs as [| c cs IH] using rev_ind; intros Hs; [reflexivity |].
  apply spacedOut_snoc in Hs as [Hs Hlast].
  rewrite commits_snoc, removelast_last. simpl. unfold elapse.
  destruct (commits_timers cs) as [_ Hp]. rewrite Hp, (IH Hs).
  destruct (last cs) as [cl |] eqn:Hl.
  - apply last_Some in Hl as Hcs. destruct Hcs as [pre ->].
    rewrite removelast_last, omap_app. simpl.
    destruct (autoSaveEffect (fst cl) (snd cl)) as [x |] eqn:He.
    + apply autoSaveEffect_Some in He as Hx. subst x. simpl.
      specialize (Hlast cl eq_refl).
      destruct (Z.leb_spec (fst cl + 1000) (fst c)); [| lia].
      reflexivity.
    + simpl. rewrite (IH Hs), removelast_last, app_nil_r. reflexivity.
  - apply last_None in Hl. subst cs. reflexivity.
Qed.

(** every callback that runs calls the storage save once, with the plan
    it closes over, if the storage module loads *)
Lemma saveCalls_each (st : Storage) (ran : list Timeout) :
  saveCalls st ran
  = match importStorage st with
    | Returned _ => map (fun x => StorageSave (userPlan (closure x))) ran
    | Thrown _ => []
    end.
Proof.
  unfold saveCalls. induction ran as [| x ran IH]; simpl.
  - destruct (importStorage st); reflexivity.
  - rewrite filter_app, IH, saveData_calls.
    destruct (importStorage st); reflexivity.
Qed.

(** X13: runs of the auto-save effect that are more than 1000ms apart
    are saved one by one.  Every run whose state is eligible gets its own
    callback, in the order of the runs, and the others get none; each
    callback calls the storage save once with the plan of its run (if the
    storage module loads).  The debounce drops nothing when the
    dependencies change slowly. *)
Theorem spaced_commits_each_save (st : Storage) (cs : list (Z * FinancialState))
    (Hspaced : spacedOut cs) :
  let ran := settle (commits cs noTimers) in
  ran = omap (fun c => autoSaveEffect (fst c) (snd c)) cs
  /\ (length ran <= length cs)%nat
  /\ saveCalls st ran
     = match importStorage st with
       | Returned _ => map (fun x => StorageSave (userPlan (closure x))) ran
       | Thrown _ => []
       end.
Proof.
  cbv zeta.
  cut (settle (commits cs noTimers)
       = omap (fun c => autoSaveEffect (fst c) (snd c)) cs
       /\ (length (settle (commits cs noTimers)) <= length cs)%nat).
  { intros [H1 H2]. split; [exact H1 |]. split; [exact H2 |].
    apply saveCalls_each. }
  assert (Hsettle : settle (commits cs noTimers)
                    = omap (fun c => autoSaveEffect (fst c) (snd c)) cs).
  { unfold settle. destruct (commits_timers cs) as [_ Hp].
    rewrite Hp, (spaced_commits_timers cs Hspaced).
    destruct cs as [| c0 cs0] using rev_ind; [reflexivity |].
    rewrite last_snoc, removelast_last, omap_app. simpl.
    destruct (autoSaveEffect (fst c0) (snd c0)); [reflexivity |].
    rewrite app_nil_r. reflexivity. }
  split; [exact Hsettle |]. rewrite Hsettle.
  clear. induction cs as [| c cs IH]; [reflexivity |].
  change (c :: cs) with ([c] ++ cs). rewrite omap_app, !length_app.
  simpl. destruct (autoSaveEffect (fst c) (snd c)); simpl; lia.
Qed.

Lemma spaced_commits_each_save_witness :
  spacedOut [(0, editedState); (1500, editedWhileSaving); (3000, editedState)]
  /\ settle (commits [(0, editedState); (1500, editedWhileSaving);
                      (3000, editedState)] noTimers)
     = [{| dueAt := 1000; closure := editedState |};
        {| dueAt := 4000; closure := editedState |}].
Proof.
  assert (Hs : spacedOut [(0, editedState); (1500, editedWhileSaving);
                          (3000, editedState)]) by (simpl; lia).
  split; [exact Hs |].
  apply (spaced_commits_each_save okStorage _ Hs).
Defined.

(** ** The utility operations *)

(** the combinators of the entity operations are the general ones *)
Lemma combinators_agree {A B : Type} (m : M A) (k : A -> M B)
    (handler : thrown -> M A) (finalizer : M unit) :
  bind m k = bindL m k
  /\ try_catch m handler = try_catchL m handler
  /\ try_finally m finalizer = try_finallyL m finalizer
  /\ try_catch_finally m handler finalizer
     = try_catch_finallyL m handler finalizer.
Proof. repeat split; reflexivity. Qed.

(** X14: the three asynchronous utility operations always resolve.
    Nothing is thrown in their try block, so their catch block does not
    run and no error action is dispatched; each raises its flag first,
    clears its error category, dispatches its one action and lowers the
    flag last.  The two forecast operations share the forecast flag and
    the forecast error category; [updateCurrentBalance] raises and lowers
    the saving flag, the flag of [saveUserPlan].  [resetAll] and
    [clearError] dispatch their one action and nothing else.  None of the
    five throws or dispatches an error action. *)
Theorem utility_operations_resolve (balance : value) (config : object)
    (errorType : option string) :
  (snd regenerateForecast = Returned tt
   /\ dispatchedU (fst regenerateForecast)
      = [more (utility.setLoadingForecast true);
         core (actions.clearError (Some "forecastError"));
         more utility.regenerateForecast;
         more (utility.setLoadingForecast false)])
  /\ (snd (updateCurrentBalance balance) = Returned tt
      /\ dispatchedU (fst (updateCurrentBalance balance))
         = [core (actions.setSaving true);
            core (actions.clearError (Some "generalError"));
            more (utility.updateCurrentBalance balance);
            core (actions.setSaving false)])
  /\ (snd (updateForecastConfig config) = Returned tt
      /\ dispatchedU (fst (updateForecastConfig config))
         = [more (utility.setLoadingForecast true);
            core (actions.clearError (Some "forecastError"));
            more (utility.updateForecastConfig config);
            more (utility.setLoadingForecast false)])
  /\ dispatchedU (fst resetAll) = [more utility.resetState]
  /\ dispatchedU (fst (clearError errorType))
     = [core (actions.clearError errorType)]
  /\ Forall (fun op : U unit =>
               snd op = Returned tt
               /\ existsb isRaisedU (fst op) = false
               /\ existsb isErrorAction (dispatchedU (fst op)) = false)
       [regenerateForecast; updateCurrentBalance balance;
        updateForecastConfig config; resetAll; clearError errorType].
Proof. repeat split; repeat constructor. Qed.

(** ** The accessor hooks *)

